(** * Simulation process manager: model and verification

    Shallow embedding of [simulation.py]: the [ProcessManager.Process]
    class, the [ProcessManager] registry and the three keywords built on
    it.  Python objects live in a store indexed by references, the
    operating system (file system, open files, child processes) is an
    explicit part of the state, and every observable action is appended
    to a trace. *)

From Stdlib Require Import ZArith String Ascii List Bool Lia.
From stdpp Require Import base list strings pretty.

Local Open Scope string_scope.
Local Open Scope list_scope.
Local Open Scope Z_scope.

(** ** Python strings *)

(** The double quote character. *)
Definition dq : string := String (ascii_of_nat 34) EmptyString.

(** The string [s] between double quotes, as the log messages write it. *)
Definition quoted (s : string) : string := dq +:+ s +:+ dq.

(** [s.split(c)] for a one-character separator. *)
Fixpoint split (c : ascii) (s : string) : list string :=
  match s with
  | EmptyString => [EmptyString]
  | String a s' =>
      if Ascii.eqb a c then EmptyString :: split c s'
      else match split c s' with
           | [] => [String a EmptyString]
           | w :: ws => String a w :: ws
           end
  end.

(** Number of occurrences of [c] in [s]. *)
Fixpoint count_char (c : ascii) (s : string) : nat :=
  match s with
  | EmptyString => 0%nat
  | String a s' => ((if Ascii.eqb a c then 1 else 0) + count_char c s')%nat
  end.

(** [sep.join(l)] *)
Fixpoint str_join (sep : string) (l : list string) : string :=
  match l with
  | [] => EmptyString
  | [w] => w
  | w :: ws => w +:+ sep +:+ str_join sep ws
  end.

(** [str(x)] for a value that is either [None] or a string. *)
Definition str_opt (o : option string) : string :=
  match o with
  | None => "None"
  | Some s => s
  end.

Definition dot : ascii := ".".
Definition slash : ascii := "/".

(** ** The [os.path] interface

    The source goes through [os.path], whose implementation depends on
    the platform.  The model is parametric in it; [posixpath] below is
    the POSIX implementation. *)

Class OsPath := {
  normpath : string -> string;
  basename : string -> string;
  join : string -> string -> string
}.

(** [s.startswith(p)] *)
Fixpoint startswith (p s : string) : bool :=
  match p, s with
  | EmptyString, _ => true
  | String a p', String b s' => Ascii.eqb a b && startswith p' s'
  | String _ _, EmptyString => false
  end.

(** [s.endswith(c)] for a one-character suffix. *)
Fixpoint endswith_char (c : ascii) (s : string) : bool :=
  match s with
  | EmptyString => false
  | String a EmptyString => Ascii.eqb a c
  | String _ s' => endswith_char c s'
  end.

(** [posixpath.basename]: what follows the last slash. *)
Definition posix_basename (p : string) : string :=
  List.last (split slash p) EmptyString.

(** [posixpath.join] of two components. *)
Definition posix_join (a b : string) : string :=
  if startswith "/" b then b
  else if (String.eqb a EmptyString || endswith_char slash a)%bool then a +:+ b
  else a +:+ "/" +:+ b.

(** The loop of [posixpath.normpath] over the components; [acc] is
    [new_comps] in reverse. *)
Fixpoint posix_norm_comps (initial_slashes : nat) (comps acc : list string)
  : list string :=
  match comps with
  | [] => rev acc
  | comp :: rest =>
      if (String.eqb comp EmptyString || String.eqb comp ".")%bool
      then posix_norm_comps initial_slashes rest acc
      else if (negb (String.eqb comp "..")
               || (Nat.eqb initial_slashes 0 && match acc with [] => true | _ => false end)
               || match acc with c :: _ => String.eqb c ".." | [] => false end)%bool
      then posix_norm_comps initial_slashes rest (comp :: acc)
      else posix_norm_comps initial_slashes rest (List.tl acc)
  end.

Definition posix_normpath (path : string) : string :=
  if String.eqb path EmptyString then "."
  else
    let initial_slashes : nat :=
      if startswith "/" path then
        if (startswith "//" path && negb (startswith "///" path))%bool
        then 2%nat else 1%nat
      else 0%nat in
    let comps := posix_norm_comps initial_slashes (split slash path) [] in
    let path' := str_join "/" comps in
    let path'' :=
      match initial_slashes with
      | O => path'
      | S O => "/" +:+ path'
      | _ => "//" +:+ path'
      end in
    if String.eqb path'' EmptyString then "." else path''.

Definition posixpath : OsPath :=
  {| normpath := posix_normpath;
     basename := posix_basename;
     join := posix_join |}.

(** ** Exceptions *)

Inductive exn_kind :=
| FileNotFoundError
| OSError
| ValueError
| TypeError
| AttributeError
| AssertionError
| KeyError
| TimeoutExpired.

(** An exception object: its class and [str()] of it. *)
Record exn := Exn { exn_class : exn_kind; exn_str : string }.

Global Instance exn_kind_eq_dec : EqDecision exn_kind.
Proof. solve_decision. Defined.

(** ** Objects and the operating system *)

(** References to [Process] objects, file objects and [Popen] objects. *)
Abbreviation ref := nat (only parsing).
Abbreviation file := nat (only parsing).
Abbreviation handle := nat (only parsing).

(** An attribute that [del] can remove from its object. *)
Inductive attr (A : Type) :=
| Deleted
| Value (a : A).
Arguments Deleted {A}.
Arguments Value {A} a.

(** The instance attributes of [ProcessManager.Process]. *)
Record Process := {
  _filename : string;
  _id : string;
  _name : option string;
  _workingDirectory : option string;
  _stdFile : option file;
  _processHandler : attr (option handle)
}.

Inductive proc_status :=
| Running
| Signalled
| Exited (rc : Z)
| Killed.

(** A child process.  [proc_grace] is how it reacts to the termination
    signal: [Some (t, rc)] exits after [t] seconds with code [rc],
    [None] ignores the signal. *)
Record OsProc := {
  proc_args : string;
  proc_cwd : option string;
  proc_stdout : option file;
  proc_stderr : option file;
  proc_grace : option (nat * Z);
  proc_status_of : proc_status
}.

Inductive level := INFO | WARN.

(** What the program does to the outside world, in order. *)
Inductive event :=
| EvLog (lvl : level) (msg : string)
| EvOpen (path : string) (mode : string)
| EvPopen (args : string) (cwd : option string) (out err : option file)
| EvTerminate (h : handle)
| EvWait (h : handle) (timeout : nat)
| EvKill (h : handle).

(** The operating system as the program sees it.  [open_error] and
    [spawn_oracle] decide which calls fail; [spawn_oracle] is indexed by
    the number of spawn attempts made so far, so that two attempts on the
    same executable may differ. *)
Record OS := {
  fs_exists : string -> bool;
  os_cwd : string;
  open_error : string -> option exn;
  spawn_oracle : nat -> string -> option string -> exn + option (nat * Z);
  spawn_count : nat;
  popen_repr : handle -> string;
  files : list string;
  procs : handle -> OsProc;
  nprocs : nat
}.

(** The whole state: the operating system, the object store, the
    [processContainer] of the global [ProcessManager] instance and the
    trace. *)
Record State := {
  os : OS;
  heap : ref -> Process;
  heap_next : ref;
  processContainer : list (string * ref);
  trace : list event
}.

Definition with_os (f : OS -> OS) (s : State) : State :=
  {| os := f (os s); heap := heap s; heap_next := heap_next s;
     processContainer := processContainer s; trace := trace s |}.

Definition with_heap (f : (ref -> Process) -> ref -> Process) (s : State) : State :=
  {| os := os s; heap := f (heap s); heap_next := heap_next s;
     processContainer := processContainer s; trace := trace s |}.

Definition with_container (f : list (string * ref) -> list (string * ref))
  (s : State) : State :=
  {| os := os s; heap := heap s; heap_next := heap_next s;
     processContainer := f (processContainer s); trace := trace s |}.

Definition emit (e : event) (s : State) : State :=
  {| os := os s; heap := heap s; heap_next := heap_next s;
     processContainer := processContainer s; trace := trace s ++ [e] |}.

(** Function update, for the object store and the process table. *)
Definition upd {A : Type} (f : nat -> A) (i : nat) (a : A) : nat -> A :=
  fun j => if Nat.eqb j i then a else f j.

(** ** The monad of Python computations: state and exceptions *)

Inductive result (A : Type) :=
| Ok (a : A)
| Raise (e : exn).
Arguments Ok {A} a.
Arguments Raise {A} e.

Definition M (A : Type) : Type := State -> result A * State.

Definition ret {A : Type} (a : A) : M A := fun s => (Ok a, s).

Definition bind {A B : Type} (m : M A) (k : A -> M B) : M B :=
  fun s =>
    match m s with
    | (Ok a, s') => k a s'
    | (Raise e, s') => (Raise e, s')
    end.

Definition raise {A : Type} (e : exn) : M A := fun s => (Raise e, s).

(** [try: m  except <classes accepted by catches> as e: h e] *)
Definition try_except {A : Type} (m : M A) (catches : exn -> bool)
  (h : exn -> M A) : M A :=
  fun s =>
    match m s with
    | (Ok a, s') => (Ok a, s')
    | (Raise e, s') => if catches e then h e s' else (Raise e, s')
    end.

Definition gets {A : Type} (f : State -> A) : M A := fun s => (Ok (f s), s).

Definition modify (f : State -> State) : M unit := fun s => (Ok tt, f s).

Notation "x <- m ;; k" := (bind m (fun x => k))
  (at level 100, m at next level, right associativity, only parsing).
Notation "m ;;; k" := (bind m (fun _ => k))
  (at level 100, right associativity, only parsing).

(** [for x in l: body x] *)
Fixpoint for_each {A : Type} (l : list A) (body : A -> M unit) : M unit :=
  match l with
  | [] => ret tt
  | x :: l' => body x ;;; for_each l' body
  end.

(** Every class of the model derives from [Exception]. *)
Definition Exception (e : exn) : bool := true.

Definition is_class (k : exn_kind) (e : exn) : bool :=
  bool_decide (exn_class e = k).

(** ** Operating-system calls *)

(** [os.path.exists(p)] *)
Definition os_path_exists (p : string) : M bool :=
  gets (fun s => fs_exists (os s) p).

(** [os.getcwd()] *)
Definition os_getcwd : M string := gets (fun s => os_cwd (os s)).

Definition os_create_file (path : string) (o : OS) : OS :=
  {| fs_exists := fun p => (String.eqb p path || fs_exists o p)%bool;
     os_cwd := os_cwd o; open_error := open_error o;
     spawn_oracle := spawn_oracle o; spawn_count := spawn_count o;
     popen_repr := popen_repr o;
     files := files o ++ [path];
     procs := procs o; nprocs := nprocs o |}.

(** [open(path, 'w')]: the file is created or truncated and the new file
    object is returned, unless the operating system refuses. *)
Definition open_w (path : string) : M file :=
  modify (emit (EvOpen path "w")) ;;;
  err <- gets (fun s => open_error (os s) path) ;;
  match err with
  | Some e => raise e
  | None =>
      f <- gets (fun s => length (files (os s))) ;;
      modify (with_os (os_create_file path)) ;;;
      ret f
  end.

Definition os_count_spawn (o : OS) : OS :=
  {| fs_exists := fs_exists o; os_cwd := os_cwd o; open_error := open_error o;
     spawn_oracle := spawn_oracle o; spawn_count := S (spawn_count o);
     popen_repr := popen_repr o; files := files o;
     procs := procs o; nprocs := nprocs o |}.

Definition os_set_procs (ps : handle -> OsProc) (n : nat) (o : OS) : OS :=
  {| fs_exists := fs_exists o; os_cwd := os_cwd o; open_error := open_error o;
     spawn_oracle := spawn_oracle o; spawn_count := spawn_count o;
     popen_repr := popen_repr o; files := files o;
     procs := ps; nprocs := n |}.

Definition os_add_proc (p : OsProc) (o : OS) : OS :=
  os_set_procs (upd (procs o) (nprocs o) p) (S (nprocs o)) o.

Definition os_set_status (h : handle) (st : proc_status) (o : OS) : OS :=
  let p := procs o h in
  os_set_procs
    (upd (procs o) h
       {| proc_args := proc_args p; proc_cwd := proc_cwd p;
          proc_stdout := proc_stdout p; proc_stderr := proc_stderr p;
          proc_grace := proc_grace p; proc_status_of := st |})
    (nprocs o) o.

(** [subprocess.Popen(args, cwd=cwd, stdout=out, stderr=err)] *)
Definition Popen (args : string) (cwd : option string) (out err : option file)
  : M handle :=
  modify (emit (EvPopen args cwd out err)) ;;;
  outcome <- gets (fun s => spawn_oracle (os s) (spawn_count (os s)) args cwd) ;;
  modify (with_os os_count_spawn) ;;;
  match outcome with
  | inl e => raise e
  | inr grace =>
      h <- gets (fun s => nprocs (os s)) ;;
      modify (with_os (os_add_proc
        {| proc_args := args; proc_cwd := cwd; proc_stdout := out;
           proc_stderr := err; proc_grace := grace;
           proc_status_of := Running |})) ;;;
      ret h
  end.

(** The status of a process once the termination signal has reached it:
    a process that has already ended is left alone. *)
Definition signalled (st : proc_status) : proc_status :=
  match st with
  | Running => Signalled
  | _ => st
  end.

(** [Popen.terminate()] *)
Definition Popen_terminate (h : handle) : M unit :=
  modify (emit (EvTerminate h)) ;;;
  st <- gets (fun s => proc_status_of (procs (os s) h)) ;;
  modify (with_os (os_set_status h (signalled st))).

(** The exit code that [wait(timeout)] finds, if the process ends within
    [timeout] seconds. *)
Definition exit_code_within (timeout : nat) (p : OsProc) : option Z :=
  match proc_status_of p with
  | Exited rc => Some rc
  | Killed => Some (-9)
  | Signalled =>
      match proc_grace p with
      | Some (t, rc) => if (t <=? timeout)%nat then Some rc else None
      | None => None
      end
  | Running => None
  end.

(** [Popen.wait(timeout)]: the exit code, or [TimeoutExpired]. *)
Definition Popen_wait (h : handle) (timeout : nat) : M Z :=
  modify (emit (EvWait h timeout)) ;;;
  p <- gets (fun s => procs (os s) h) ;;
  match exit_code_within timeout p with
  | Some rc =>
      modify (with_os (os_set_status h
        (match proc_status_of p with Killed => Killed | _ => Exited rc end))) ;;;
      ret rc
  | None =>
      raise (Exn TimeoutExpired
        ("Command '" +:+ proc_args p +:+ "' timed out after "
         +:+ pretty timeout +:+ " seconds"))
  end.

(** [Popen.kill()] *)
Definition Popen_kill (h : handle) : M unit :=
  modify (emit (EvKill h)) ;;;
  st <- gets (fun s => proc_status_of (procs (os s) h)) ;;
  modify (with_os (os_set_status h
    (match st with Exited rc => Exited rc | _ => Killed end))).

(** ** The logger *)

(** Modelled from the spec: [RobotLoggerClass] of
    [resources.keywords.logging_lib] is not part of the sources; the spec
    describes it as a logging facade accepting leveled informational and
    warning messages.  A call records the message and returns. *)
Definition SimuLogger_info (msg : string) : M unit :=
  modify (emit (EvLog INFO msg)).

Definition SimuLogger_warning (msg : string) : M unit :=
  modify (emit (EvLog WARN msg)).

(** ** Python dictionaries

    A dictionary keeps its keys in insertion order, and [stopAllProcesses]
    iterates over it: the model is an association list. *)

Definition dict (V : Type) : Type := list (string * V).

(** [k in d.keys()] *)
Definition dict_mem {V : Type} (k : string) (d : dict V) : bool :=
  existsb (fun kv => String.eqb (fst kv) k) d.

(** [d.get(k)] *)
Fixpoint dict_get {V : Type} (k : string) (d : dict V) : option V :=
  match d with
  | [] => None
  | (k', v) :: d' => if String.eqb k' k then Some v else dict_get k d'
  end.

(** [d[k] = v]: a key already present keeps its place. *)
Fixpoint dict_set {V : Type} (k : string) (v : V) (d : dict V) : dict V :=
  match d with
  | [] => [(k, v)]
  | (k', v') :: d' =>
      if String.eqb k' k then (k', v) :: d' else (k', v') :: dict_set k v d'
  end.

(** What remains of [d] once the entry of [k] is taken out. *)
Fixpoint dict_remove {V : Type} (k : string) (d : dict V) : dict V :=
  match d with
  | [] => []
  | (k', v') :: d' =>
      if String.eqb k' k then d' else (k', v') :: dict_remove k d'
  end.

(** [d.pop(k)]: the value and what remains, or nothing when [k] is not
    a key (Python raises [KeyError]). *)
Definition dict_pop {V : Type} (k : string) (d : dict V) : option (V * dict V) :=
  match dict_get k d with
  | Some v => Some (v, dict_remove k d)
  | None => None
  end.

(** [list(d.values())] *)
Definition dict_values {V : Type} (d : dict V) : list V := snd <$> d.

(** [list(d.keys())] *)
Definition dict_keys {V : Type} (d : dict V) : list string := fst <$> d.

(** ** [ProcessManager.Process] *)

Section Program.

Context {os_path : OsPath}.

Definition _STD_FILE_EXT : string := ".log".

Definition set_filename (v : string) (p : Process) : Process :=
  {| _filename := v; _id := _id p; _name := _name p;
     _workingDirectory := _workingDirectory p; _stdFile := _stdFile p;
     _processHandler := _processHandler p |}.

Definition set_name (v : option string) (p : Process) : Process :=
  {| _filename := _filename p; _id := _id p; _name := v;
     _workingDirectory := _workingDirectory p; _stdFile := _stdFile p;
     _processHandler := _processHandler p |}.

Definition set_workingDirectory (v : option string) (p : Process) : Process :=
  {| _filename := _filename p; _id := _id p; _name := _name p;
     _workingDirectory := v; _stdFile := _stdFile p;
     _processHandler := _processHandler p |}.

Definition set_stdFile (v : option file) (p : Process) : Process :=
  {| _filename := _filename p; _id := _id p; _name := _name p;
     _workingDirectory := _workingDirectory p; _stdFile := v;
     _processHandler := _processHandler p |}.

Definition set_processHandler (v : attr (option handle)) (p : Process) : Process :=
  {| _filename := _filename p; _id := _id p; _name := _name p;
     _workingDirectory := _workingDirectory p; _stdFile := _stdFile p;
     _processHandler := v |}.

(** [self.<attribute>] read and written through the object store. *)
Definition getattr {A : Type} (self : ref) (f : Process -> A) : M A :=
  gets (fun s => f (heap s self)).

Definition setattr (self : ref) (f : Process -> Process) : M unit :=
  modify (with_heap (fun hp => upd hp self (f (hp self)))).

Definition getId (self : ref) : M string := getattr self _id.

Definition getName (self : ref) : M (option string) := getattr self _name.

Definition getFileName (self : ref) : M string := getattr self _filename.

Definition getWorkingDirectory (self : ref) : M (option string) :=
  getattr self _workingDirectory.

Definition getStdFile (self : ref) : M (option file) := getattr self _stdFile.

Definition no_attribute (cls name : string) : exn :=
  Exn AttributeError
    ("'" +:+ cls +:+ "' object has no attribute '" +:+ name +:+ "'").

(** [self._processHandler]: reading a deleted attribute raises. *)
Definition getProcessHandler (self : ref) : M (option handle) :=
  a <- getattr self _processHandler ;;
  match a with
  | Deleted => raise (no_attribute "Process" "_processHandler")
  | Value v => ret v
  end.

(** [self._processHandler.<method>]: the [Popen] object the method is
    called on; [None] has no such method. *)
Definition processHandler_method (self : ref) (method : string) : M handle :=
  v <- getProcessHandler self ;;
  match v with
  | None => raise (no_attribute "NoneType" method)
  | Some h => ret h
  end.

(** [str(self.getProcessHandler())] in a log message. *)
Definition str_handler (v : option handle) : M string :=
  match v with
  | None => ret "None"
  | Some h => gets (fun s => popen_repr (os s) h)
  end.

Definition __validateFileName (self : ref) : M unit :=
  f <- getattr self _filename ;;
  ex <- os_path_exists f ;;
  if negb ex then
    raise (Exn FileNotFoundError ("File does not exists: " +:+ quoted f))
  else
    setattr self (set_filename (normpath f)) ;;;
    f' <- getattr self _filename ;;
    setattr self (set_name (Some (basename f'))).

Definition __validateWorkingDirectory (self : ref) : M unit :=
  wd <- getattr self _workingDirectory ;;
  match wd with
  | None =>
      raise (Exn TypeError
        "stat: path should be string, bytes, os.PathLike or integer, not NoneType")
  | Some d =>
      ex <- os_path_exists d ;;
      if negb ex then
        raise (Exn FileNotFoundError
          ("Working directory does not exists: " +:+ quoted d))
      else setattr self (set_workingDirectory (Some (normpath d)))
  end.

(** The [ValueError] of unpacking [parts] into two names. *)
Definition unpack2_error (parts : list string) : exn :=
  match parts with
  | _ :: _ :: _ :: _ => Exn ValueError "too many values to unpack (expected 2)"
  | _ =>
      Exn ValueError
        ("not enough values to unpack (expected 2, got "
         +:+ pretty (length parts) +:+ ")")
  end.

(** [name, ext = parts]: exactly two values, or [ValueError]. *)
Definition unpack2 (parts : list string) : M (string * string) :=
  match parts with
  | [name; ext] => ret (name, ext)
  | _ => raise (unpack2_error parts)
  end.

Definition __configureStdFile (self : ref) : M unit :=
  n <- getName self ;;
  match n with
  | None => raise (no_attribute "NoneType" "split")
  | Some n =>
      ne <- unpack2 (split dot n) ;;
      let name := fst ne in
      wd <- getWorkingDirectory self ;;
      match wd with
      | None =>
          raise (Exn TypeError
            "expected str, bytes or os.PathLike object, not NoneType")
      | Some wd =>
          let std_filename := normpath (join wd (name +:+ _STD_FILE_EXT)) in
          f <- open_w std_filename ;;
          setattr self (set_stdFile (Some f))
      end
  end.

Definition __init__ (self : ref) (filename id : string)
  (workingDirectory : option string) : M unit :=
  setattr self (fun _ =>
    {| _filename := filename; _id := id; _name := None;
       _workingDirectory := workingDirectory; _stdFile := None;
       _processHandler := Value None |}) ;;;
  __validateFileName self ;;;
  wd <- getattr self _workingDirectory ;;
  match wd with
  | None =>
      cwd <- os_getcwd ;;
      setattr self (set_workingDirectory (Some cwd)) ;;;
      name <- getName self ;;
      cwd' <- getWorkingDirectory self ;;
      SimuLogger_warning
        ("No working directory configured for process: " +:+ quoted (str_opt name)
         +:+ " Current working directory will be used: "
         +:+ quoted (str_opt cwd'))
  | Some _ => __validateWorkingDirectory self
  end ;;;
  __configureStdFile self ;;;
  f <- getFileName self ;;
  SimuLogger_info ("New process created: " +:+ quoted f).

(** [ProcessManager.Process(filename, id, workingDirectory)]: a new object
    is allocated and initialised. *)
Definition new_Process (filename id : string) (workingDirectory : option string)
  : M ref :=
  self <- gets heap_next ;;
  modify (fun s =>
    {| os := os s; heap := heap s; heap_next := S (heap_next s);
       processContainer := processContainer s; trace := trace s |}) ;;;
  __init__ self filename id workingDirectory ;;;
  ret self.

(** [del self._processHandler]: an attribute already deleted cannot be
    deleted again. *)
Definition del_processHandler (self : ref) : M unit :=
  a <- getattr self _processHandler ;;
  match a with
  | Deleted => raise (no_attribute "Process" "_processHandler")
  | Value _ => setattr self (set_processHandler Deleted)
  end.

Definition start (self : ref) : M (option exn) :=
  try_except
    (args <- getFileName self ;;
     cwd <- getWorkingDirectory self ;;
     out <- getStdFile self ;;
     err <- getStdFile self ;;
     h <- Popen args cwd out err ;;
     setattr self (set_processHandler (Value (Some h))) ;;;
     name <- getName self ;;
     hd <- getProcessHandler self ;;
     handler <- str_handler hd ;;
     SimuLogger_info
       ("Process " +:+ quoted (str_opt name) +:+ " started: " +:+ handler) ;;;
     ret None)
    Exception
    (fun detail =>
       setattr self (set_processHandler (Value None)) ;;;
       ret (Some detail)).

Definition stop (self : ref) : M unit :=
  h <- processHandler_method self "terminate" ;;
  Popen_terminate h ;;;
  try_except
    (h <- processHandler_method self "wait" ;;
     processResult <- Popen_wait h 20 ;;
     name <- getName self ;;
     SimuLogger_info
       ("Process " +:+ quoted (str_opt name)
        +:+ " terminated with result code: " +:+ pretty processResult))
    (is_class TimeoutExpired)
    (fun _ =>
       h <- processHandler_method self "kill" ;;
       Popen_kill h ;;;
       name <- getName self ;;
       SimuLogger_info ("Process " +:+ quoted (str_opt name) +:+ " killed")) ;;;
  del_processHandler self.

(** ** [ProcessManager] *)

Definition getAllProcesses : M (dict ref) := gets processContainer.

Definition _getProcessFromFileName (filename id : string)
  (workingDirectory : option string) : M ref :=
  new_Process filename id workingDirectory.

Definition _startProcess (process : ref) : M unit :=
  errorMsg <- start process ;;
  match errorMsg with
  | Some e =>
      name <- getName process ;;
      raise (Exn AssertionError
        ("Process " +:+ quoted (str_opt name) +:+ " could not be started: "
         +:+ exn_str e))
  | None => ret tt
  end.

(** The local variable [process] is bound once [_getProcessFromFileName]
    has returned: an exception raised before leaves it [None], one raised
    after leaves it bound.  Both are caught by the same handler. *)
Definition startProcessFromFileName (filename id : string)
  (workingDirectory : option string) : M (option ref * option exn) :=
  created <- try_except
    (process <- _getProcessFromFileName filename id workingDirectory ;;
     ret (inl process))
    Exception
    (fun detail => ret (inr detail)) ;;
  match created with
  | inr detail => ret (None, Some detail)
  | inl process =>
      errorMsg <- try_except
        (_startProcess process ;;;
         key <- getId process ;;
         modify (with_container (dict_set key process)) ;;;
         ret None)
        Exception
        (fun detail => ret (Some detail)) ;;
      ret (Some process, errorMsg)
  end.

Definition stopProcess (id : string) : M (option string) :=
  present <- gets (fun s => dict_mem id (processContainer s)) ;;
  if present then
    popped <- gets (fun s => dict_pop id (processContainer s)) ;;
    match popped with
    | None => raise (Exn KeyError id)
    | Some (process, rest) =>
        modify (with_container (fun _ => rest)) ;;;
        stop process ;;;
        ret None
    end
  else ret (Some ("No process ID with name: " +:+ quoted id)).

Definition stopAllProcesses : M (option string) :=
  all <- getAllProcesses ;;
  match all with
  | _ :: _ =>
      values <- gets (fun s => dict_values (processContainer s)) ;;
      for_each values stop ;;;
      modify (with_container (fun _ => [])) ;;;
      ret None
  | [] =>
      ret (Some "There is no simulation process currently running to be stopped")
  end.

(** ** The keywords *)

Definition start_simulation_process (filename processID : string)
  (workingDirectory : option string) : M string :=
  r <- startProcessFromFileName filename processID workingDirectory ;;
  match r with
  | (_, Some errorMsg) => raise (Exn AssertionError (exn_str errorMsg))
  | (Some process, None) => getId process
  | (None, None) => raise (no_attribute "NoneType" "getId")
  end.

Definition stop_simulation_process (processID : string) : M unit :=
  errorMsg <- stopProcess processID ;;
  match errorMsg with
  | Some msg => raise (Exn AssertionError msg)
  | None => ret tt
  end.

Definition stop_all_simulation_processes : M unit :=
  errorMsg <- stopAllProcesses ;;
  match errorMsg with
  | Some msg => raise (Exn AssertionError msg)
  | None => ret tt
  end.

End Program.

(** ** Vocabulary of the specification *)

Section Vocabulary.

Context {os_path : OsPath}.

(** The working directory a [Process] ends up with. *)
Definition effective_wd (wd : option string) (s : State) : string :=
  match wd with
  | None => os_cwd (os s)
  | Some d => normpath d
  end.

(** The path of the log file, for the part of the base name before the
    dot. *)
Definition std_filename (wd name : string) : string :=
  normpath (join wd (name +:+ _STD_FILE_EXT)).

(** The attributes of a freshly constructed [Process]. *)
Definition constructed (filename id wd : string) (f : file) : Process :=
  {| _filename := normpath filename; _id := id;
     _name := Some (basename (normpath filename));
     _workingDirectory := Some wd; _stdFile := Some f;
     _processHandler := Value None |}.

(** The warning of the constructor when no working directory is given. *)
Definition default_warning (filename : string) (s : State) : event :=
  EvLog WARN
    ("No working directory configured for process: "
     +:+ quoted (basename (normpath filename))
     +:+ " Current working directory will be used: "
     +:+ quoted (os_cwd (os s))).

Definition default_warnings (filename : string) (wd : option string) (s : State)
  : list event :=
  match wd with
  | None => [default_warning filename s]
  | Some _ => []
  end.

(** The working directory the constructor rejects: the one given, when
    it does not exist. *)
Definition wd_missing (wd : option string) (s : State) : option string :=
  match wd with
  | Some d => if fs_exists (os s) d then None else Some d
  | None => None
  end.

(** The same state over a file system where other paths exist. *)
Definition with_fs_exists (ex : string -> bool) (s : State) : State :=
  with_os (fun o =>
    {| fs_exists := ex; os_cwd := os_cwd o; open_error := open_error o;
       spawn_oracle := spawn_oracle o; spawn_count := spawn_count o;
       popen_repr := popen_repr o; files := files o;
       procs := procs o; nprocs := nprocs o |}) s.

Definition is_warning (e : event) : bool :=
  match e with
  | EvLog WARN _ => true
  | _ => false
  end.

Definition is_open (e : event) : bool :=
  match e with
  | EvOpen _ _ => true
  | _ => false
  end.

Definition is_kill (e : event) : bool :=
  match e with
  | EvKill _ => true
  | _ => false
  end.

Definition is_popen (e : event) : bool :=
  match e with
  | EvPopen _ _ _ _ => true
  | _ => false
  end.

(** The events that signal a child process. *)
Definition is_signal (e : event) : bool :=
  match e with
  | EvTerminate _ | EvKill _ => true
  | _ => false
  end.


(** A process the termination signal has reached. *)
Definition after_signal (p : OsProc) : OsProc :=
  {| proc_args := proc_args p; proc_cwd := proc_cwd p;
     proc_stdout := proc_stdout p; proc_stderr := proc_stderr p;
     proc_grace := proc_grace p;
     proc_status_of := signalled (proc_status_of p) |}.

Definition terminated_msg (name : option string) (rc : Z) : string :=
  "Process " +:+ quoted (str_opt name)
  +:+ " terminated with result code: " +:+ pretty rc.

Definition killed_msg (name : option string) : string :=
  "Process " +:+ quoted (str_opt name) +:+ " killed".

(** What [stop] does to the process [h], itself in state [p]. *)
Definition stop_events (name : option string) (h : handle) (p : OsProc)
  : list event :=
  [EvTerminate h; EvWait h 20] ++
  match exit_code_within 20 (after_signal p) with
  | Some rc => [EvLog INFO (terminated_msg name rc)]
  | None => [EvKill h; EvLog INFO (killed_msg name)]
  end.

(** The [Popen] object an object holds, if any. *)
Definition handle_of (s : State) (r : ref) : option handle :=
  match _processHandler (heap s r) with
  | Value v => v
  | Deleted => None
  end.

(** What [stop] does when called on the object [r] in state [s]. *)
Definition stop_events_of (s : State) (r : ref) : list event :=
  match handle_of s r with
  | Some h => stop_events (_name (heap s r)) h (procs (os s) h)
  | None => []
  end.

(** The child process [start] creates for the object [p]. *)
Definition spawned (p : Process) (grace : option (nat * Z)) : OsProc :=
  {| proc_args := _filename p; proc_cwd := _workingDirectory p;
     proc_stdout := _stdFile p; proc_stderr := _stdFile p;
     proc_grace := grace; proc_status_of := Running |}.

Definition popen_event (p : Process) : event :=
  EvPopen (_filename p) (_workingDirectory p) (_stdFile p) (_stdFile p).

Definition could_not_be_started (name : option string) (detail : exn) : exn :=
  Exn AssertionError
    ("Process " +:+ quoted (str_opt name) +:+ " could not be started: "
     +:+ exn_str detail).

(** *** Sequences of registry operations *)

Inductive op :=
| OpStart (filename id : string) (workingDirectory : option string)
| OpStop (id : string)
| OpStopAll.

(** The state an operation leaves behind, whatever it returns or raises. *)
Definition step (o : op) (s : State) : State :=
  match o with
  | OpStart filename id wd => snd (startProcessFromFileName filename id wd s)
  | OpStop id => snd (stopProcess id s)
  | OpStopAll => snd (stopAllProcesses s)
  end.

Definition run (ops : list op) (s : State) : State :=
  fold_left (fun s o => step o s) ops s.

(** The registry as its own operations leave it: distinct keys, and every
    registered object is allocated and holds a [Popen] object of its
    own. *)
Definition registered_ok (s : State) (r : ref) : Prop :=
  (r < heap_next s)%nat /\
  exists h, handle_of s r = Some h /\ (h < nprocs (os s))%nat.

Definition registry_inv (s : State) : Prop :=
  NoDup (dict_keys (processContainer s)) /\
  NoDup (handle_of s <$> dict_values (processContainer s)) /\
  Forall (registered_ok s) (dict_values (processContainer s)).

End Vocabulary.

(** *** A concrete world, for examples *)

Definition blank_process : Process :=
  {| _filename := EmptyString; _id := EmptyString; _name := None;
     _workingDirectory := None; _stdFile := None;
     _processHandler := Deleted |}.

Definition blank_proc : OsProc :=
  {| proc_args := EmptyString; proc_cwd := None; proc_stdout := None;
     proc_stderr := None; proc_grace := None; proc_status_of := Running |}.

(** The error of a start that fails: [sim/bad.exe] cannot be executed. *)
Definition exec_format_error : exn :=
  Exn OSError "[Errno 8] Exec format error: 'sim/bad.exe'".

(** A file system holding three executables and two directories; the
    directory [ro] is read-only, [sim/bad.exe] cannot be executed,
    [sim/hang.exe] ignores the termination signal and the others exit
    two seconds after it with code 0. *)
Definition demo_os (cwd : string) : OS :=
  {| fs_exists := fun p =>
       existsb (String.eqb p)
         ["sim/app.exe"; "sim"; "sim/hang.exe"; "sim/bad.exe"; "tool"; "ro"];
     os_cwd := cwd;
     open_error := fun p =>
       if startswith "ro/" p
       then Some (Exn OSError ("[Errno 13] Permission denied: '" +:+ p +:+ "'"))
       else None;
     spawn_oracle := fun _ args _ =>
       if String.eqb args "sim/bad.exe" then inl exec_format_error
       else if String.eqb args "sim/hang.exe" then inr None
       else inr (Some (2%nat, 0));
     spawn_count := 0%nat;
     popen_repr := fun h => "<Popen " +:+ pretty h +:+ ">";
     files := [];
     procs := fun _ => blank_proc;
     nprocs := 0%nat |}.

(** The state right after the module is loaded: [ProcessManager()] has an
    empty [processContainer]. *)
Definition init_state (o : OS) : State :=
  {| os := o; heap := fun _ => blank_process; heap_next := 0%nat;
     processContainer := []; trace := [] |}.

(** States of the concrete world, on POSIX paths: after constructing a
    [Process] for [sim/app.exe], after starting it, and a registry with
    two running processes. *)
Definition demo_init : State := init_state (demo_os "/home/robot").

Definition demo_constructed : State :=
  snd (new_Process (os_path := posixpath) "sim/app.exe" "JCP" (Some "sim")
         demo_init).

Definition demo_started : State :=
  snd (start 0%nat demo_constructed).

Definition demo_stopped : State :=
  snd (stop 0%nat demo_started).

Definition demo_registry : State :=
  run (os_path := posixpath)
    [OpStart "sim/hang.exe" "A" None; OpStart "sim/app.exe" "B" (Some "sim")]
    demo_init.

(** * [utils.py]

    Python strings are modelled on the code points below 256. *)

(** A value that is a [bool] or a [str]. *)
Inductive pyval :=
| PyBool (b : bool)
| PyStr (s : string).

(** [c.isspace()] *)
Definition is_space (c : ascii) : bool :=
  let n := nat_of_ascii c in
  (((9 <=? n) && (n <=? 13)) || ((28 <=? n) && (n <=? 32))
   || (n =? 133) || (n =? 160))%nat%bool.

(** [c.isdigit()], which is also what [\d] matches. *)
Definition is_digit (c : ascii) : bool :=
  let n := nat_of_ascii c in ((48 <=? n) && (n <=? 57))%nat%bool.

(** [s.lstrip()] *)
Fixpoint lstrip (s : string) : string :=
  match s with
  | EmptyString => EmptyString
  | String c s' => if is_space c then lstrip s' else s
  end.

(** [s.rstrip()] *)
Fixpoint rstrip (s : string) : string :=
  match s with
  | EmptyString => EmptyString
  | String c s' =>
      match rstrip s' with
      | EmptyString => if is_space c then EmptyString else String c EmptyString
      | t => String c t
      end
  end.

(** [s.strip()] *)
Definition strip (s : string) : string := rstrip (lstrip s).

(** [s in l] for a list of strings. *)
Definition str_in (s : string) (l : list string) : bool :=
  existsb (String.eqb s) l.

(** [str(b)] *)
Definition str_bool (b : bool) : string := if b then "True" else "False".

(** [str(v)], as [format] inserts it. *)
Definition str_pyval (v : pyval) : string :=
  match v with
  | PyBool b => str_bool b
  | PyStr s => s
  end.

(** [str_to_bool(string)] *)
Definition str_to_bool (string : pyval) : result bool :=
  match string with
  | PyBool b => Ok b
  | PyStr s =>
      if str_in (strip s) ["True"; "true"; "Yes"; "yes"] then Ok true
      else if str_in (strip s) ["False"; "false"; "No"; "no"] then Ok false
      else
        Raise (Exn AssertionError
          ("(str_to_bool) '" +:+ s
           +:+ "' is an invalid string for boolean conversion"))
  end.

(** What [datetime.datetime.now()] returns.  A [datetime] object keeps its
    fields in range: the year has at most four digits, the microsecond at
    most six, the others at most two. *)
Record datetime := {
  year : nat;
  month : nat;
  day : nat;
  hour : nat;
  minute : nat;
  second : nat;
  microsecond : nat
}.

Definition digit (n : nat) : ascii := ascii_of_nat (48 + n mod 10).

(** [n] printed on [w] digits with leading zeros, the way [%0wd] prints a
    number that fits. *)
Fixpoint digits (w n : nat) : string :=
  match w with
  | O => EmptyString
  | S w' => digits w' (n / 10) +:+ String (digit n) EmptyString
  end.

(** [str(d)]: the ISO format with a space between date and time; the
    microseconds are printed when they are not zero. *)
Definition str_datetime (d : datetime) : string :=
  digits 4 (year d) +:+ "-" +:+ digits 2 (month d) +:+ "-"
  +:+ digits 2 (day d) +:+ " " +:+ digits 2 (hour d) +:+ ":"
  +:+ digits 2 (minute d) +:+ ":" +:+ digits 2 (second d)
  +:+ (if (microsecond d =? 0)%nat then EmptyString
       else "." +:+ digits 6 (microsecond d)).

(** The regular expressions [get_datetime] needs: a sequence of groups
    of a fixed number of digits, single characters and single blanks. *)
Inductive re_item :=
| ReDigits (n : nat)
| ReChar (c : ascii)
| ReSpace.

(** [n] digits at the start of [s], and what follows them. *)
Fixpoint take_digits (n : nat) (s : string) : option (string * string) :=
  match n with
  | O => Some (EmptyString, s)
  | S n' =>
      match s with
      | String c s' =>
          if is_digit c then
            match take_digits n' s' with
            | Some (g, rest) => Some (String c g, rest)
            | None => None
            end
          else None
      | EmptyString => None
      end
  end.

(** The groups of a match of [p] at the start of [s]. *)
Fixpoint match_here (p : list re_item) (s : string) : option (list string) :=
  match p with
  | [] => Some []
  | ReDigits n :: p' =>
      match take_digits n s with
      | Some (g, rest) =>
          match match_here p' rest with
          | Some gs => Some (g :: gs)
          | None => None
          end
      | None => None
      end
  | ReChar c :: p' =>
      match s with
      | String a s' => if Ascii.eqb a c then match_here p' s' else None
      | EmptyString => None
      end
  | ReSpace :: p' =>
      match s with
      | String a s' => if is_space a then match_here p' s' else None
      | EmptyString => None
      end
  end.

(** [re.search(p, s)]: the groups of the leftmost match, if any. *)
Fixpoint re_search (p : list re_item) (s : string) : option (list string) :=
  match match_here p s with
  | Some gs => Some gs
  | None =>
      match s with
      | EmptyString => None
      | String _ s' => re_search p s'
      end
  end.

(** [(\d{4})-(\d{2})-(\d{2})\s{1}(\d{2}):(\d{2}):(\d{2})] *)
Definition RE_DATE_TEMPLATE : list re_item :=
  [ReDigits 4; ReChar "-"; ReDigits 2; ReChar "-"; ReDigits 2; ReSpace;
   ReDigits 2; ReChar ":"; ReDigits 2; ReChar ":"; ReDigits 2].

(** [date_match.group(i)], for [i] from 1. *)
Definition group (gs : list string) (i : nat) : string :=
  nth (i - 1) gs EmptyString.

(** [get_datetime(flat_format)], when [datetime.datetime.now()] is
    [now]. *)
Definition get_datetime (flat_format : pyval) (now : datetime)
  : result (option string) :=
  match re_search RE_DATE_TEMPLATE (str_datetime now) with
  | Some date_match =>
      match str_to_bool flat_format with
      | Raise e => Raise e
      | Ok true =>
          Ok (Some (group date_match 3 +:+ "_" +:+ group date_match 2 +:+ "_"
                    +:+ group date_match 1 +:+ "__" +:+ group date_match 4
                    +:+ "_" +:+ group date_match 5 +:+ "_"
                    +:+ group date_match 6))
      | Ok false =>
          Ok (Some (group date_match 3 +:+ "-" +:+ group date_match 2 +:+ "-"
                    +:+ group date_match 1 +:+ " " +:+ group date_match 4
                    +:+ ":" +:+ group date_match 5 +:+ ":"
                    +:+ group date_match 6))
      end
  | None => Ok None
  end.

(** A string of blanks only. *)
Definition all_space (s : string) : bool :=
  forallb is_space (list_ascii_of_string s).

(** * Verification *)

Section Verification.

Context {os_path : OsPath}.

(** ** Splitting strings *)

Lemma split_length (c : ascii) (s : string) :
  length (split c s) = S (count_char c s).
Proof.
  induction s as [|a s IH]; [reflexivity|].
  cbn [split count_char]. destruct (Ascii.eqb a c).
  - cbn. now rewrite IH.
  - destruct (split c s); cbn in *; lia.
Qed.

Lemma split_no_sep (c : ascii) (s : string) :
  count_char c s = 0%nat -> split c s = [s].
Proof.
  induction s as [|a s IH]; [reflexivity|].
  cbn [split count_char]. destruct (Ascii.eqb a c); [discriminate|].
  intros H. now rewrite IH.
Qed.

Lemma split_app_sep (c : ascii) (a b : string) :
  split c (a +:+ String c b) = split c a ++ split c b.
Proof.
  induction a as [|x a IH].
  - simpl. now rewrite Ascii.eqb_refl.
  - simpl. rewrite IH.
    destruct (Ascii.eqb x c); [reflexivity|].
    pose proof (split_length c a) as Hl.
    destruct (split c a); [discriminate|reflexivity].
Qed.

(** A string that splits in two is [name.ext], and conversely the two
    parts are the ones on each side of its only separator. *)
Lemma split_two (c : ascii) (a b : string) (x y : string) :
  split c (a +:+ String c b) = [x; y] -> x = a /\ y = b.
Proof.
  rewrite split_app_sep. intros H.
  pose proof (split_length c a) as Ha. pose proof (split_length c b) as Hb.
  assert (Hlen : (length (split c a) + length (split c b) = 2)%nat)
    by now rewrite <- length_app, H.
  assert (Ca : count_char c a = 0%nat) by lia.
  assert (Cb : count_char c b = 0%nat) by lia.
  rewrite (split_no_sep c a Ca), (split_no_sep c b Cb) in H.
  now inversion H.
Qed.

Lemma split_not_two (c : ascii) (s : string) :
  count_char c s <> 1%nat ->
  match split c s with
  | [_; _] => False
  | _ => True
  end.
Proof.
  intros H. pose proof (split_length c s) as Hl.
  destruct (split c s) as [|x [|y [|z l]]]; cbn in *; auto. lia.
Qed.

(** ** Dictionaries *)

Section Dict.

Context {V : Type}.

Implicit Types (d : dict V) (k : string) (v : V).

Lemma dict_mem_get k d : dict_mem k d = true <-> is_Some (dict_get k d).
Proof.
  induction d as [|[k' v'] d IH]; cbn.
  - split; [discriminate|]. intros [? ?]; discriminate.
  - destruct (String.eqb k' k); cbn; [|exact IH].
    split; eauto.
Qed.

Lemma dict_mem_keys k d : dict_mem k d = true <-> k ∈ dict_keys d.
Proof.
  unfold dict_keys. induction d as [|[k' v'] d IH]; cbn.
  - split; [discriminate|]. intros H. inversion H.
  - rewrite elem_of_cons, <- IH. destruct (String.eqb_spec k' k); cbn.
    + split; auto.
    + split; auto. intros [->|]; [contradiction|assumption].
Qed.

Lemma dict_get_None k d : dict_get k d = None <-> k ∉ dict_keys d.
Proof.
  rewrite <- dict_mem_keys, dict_mem_get.
  destruct (dict_get k d) as [v|].
  - split; [discriminate|]. intros H. destruct H. eauto.
  - split; [|reflexivity]. intros _ [? ?]. discriminate.
Qed.

Lemma dict_get_values k v d : dict_get k d = Some v -> v ∈ dict_values d.
Proof.
  unfold dict_values. induction d as [|[k' v'] d IH]; cbn; [discriminate|].
  destruct (String.eqb k' k).
  - intros [= ->]. apply elem_of_cons. now left.
  - intros H. apply elem_of_cons. right. auto.
Qed.

Lemma dict_keys_set k v d :
  dict_keys (dict_set k v d)
  = if dict_mem k d then dict_keys d else dict_keys d ++ [k].
Proof.
  unfold dict_keys, dict_mem.
  induction d as [|[k' v'] d IH]; cbn; [reflexivity|].
  destruct (String.eqb k' k) eqn:E; cbn; [reflexivity|].
  rewrite IH. now destruct (existsb _ d).
Qed.

Lemma dict_set_NoDup k v d :
  NoDup (dict_keys d) -> NoDup (dict_keys (dict_set k v d)).
Proof.
  intros H. rewrite dict_keys_set.
  destruct (dict_mem k d) eqn:E; [assumption|].
  apply NoDup_app. split; [assumption|]. split.
  - intros x Hx Hk. apply list_elem_of_singleton in Hk. subst x.
    apply dict_mem_keys in Hx. congruence.
  - apply NoDup_singleton.
Qed.

Lemma dict_get_set_same k v d : dict_get k (dict_set k v d) = Some v.
Proof.
  induction d as [|[k' v'] d IH]; cbn.
  - now rewrite String.eqb_refl.
  - destruct (String.eqb k' k) eqn:E; cbn; now rewrite E.
Qed.

Lemma dict_get_set_other k k' v d :
  k' <> k -> dict_get k' (dict_set k v d) = dict_get k' d.
Proof.
  intros Hne. induction d as [|[k0 v0] d IH]; cbn.
  - destruct (String.eqb_spec k k'); [congruence|reflexivity].
  - destruct (String.eqb_spec k0 k); cbn.
    + subst k0. destruct (String.eqb_spec k k'); [congruence|reflexivity].
    + now rewrite IH.
Qed.

Lemma dict_set_length k v d :
  length (dict_set k v d)
  = if dict_mem k d then length d else S (length d).
Proof.
  unfold dict_mem.
  induction d as [|[k' v'] d IH]; cbn; [reflexivity|].
  destruct (String.eqb k' k); cbn; [reflexivity|].
  rewrite IH. now destruct (existsb _ d).
Qed.

Lemma dict_set_values k v d x :
  x ∈ dict_values (dict_set k v d) -> x = v \/ x ∈ dict_values d.
Proof.
  unfold dict_values. induction d as [|[k' v'] d IH]; cbn.
  - intros H. apply list_elem_of_singleton in H. now left.
  - destruct (String.eqb k' k); cbn; rewrite !elem_of_cons.
    + intros [->|H]; auto.
    + intros [->|H]; auto. destruct (IH H); auto.
Qed.

Lemma dict_remove_sublist k d : sublist (dict_remove k d) d.
Proof.
  induction d as [|[k' v'] d IH]; cbn; [constructor|].
  destruct (String.eqb k' k).
  - now apply sublist_cons.
  - now apply sublist_skip.
Qed.

Lemma dict_get_remove_same k d :
  NoDup (dict_keys d) -> dict_get k (dict_remove k d) = None.
Proof.
  unfold dict_keys. induction d as [|[k' v'] d IH]; cbn; [reflexivity|].
  intros H. apply NoDup_cons in H as [Hk H].
  destruct (String.eqb_spec k' k); cbn.
  - subst k'. now apply dict_get_None.
  - destruct (String.eqb_spec k' k); [contradiction|]. auto.
Qed.

Lemma dict_get_remove_other k k' d :
  k' <> k -> dict_get k' (dict_remove k d) = dict_get k' d.
Proof.
  intros Hne. induction d as [|[k0 v0] d IH]; cbn; [reflexivity|].
  destruct (String.eqb_spec k0 k); cbn.
  - subst k0. destruct (String.eqb_spec k k'); [congruence|reflexivity].
  - now rewrite IH.
Qed.

Lemma dict_remove_length k d :
  is_Some (dict_get k d) -> S (length (dict_remove k d)) = length d.
Proof.
  induction d as [|[k' v'] d IH]; cbn.
  - intros [? ?]; discriminate.
  - destruct (String.eqb k' k); cbn; [reflexivity|].
    intros H. now rewrite IH.
Qed.

End Dict.

Local Arguments String.append : simpl never.
Local Arguments split : simpl never.
Local Arguments pretty : simpl never.
Local Arguments exit_code_within : simpl never.

(** ** The object store and the monad *)

Lemma upd_same {A : Type} (f : nat -> A) (i : nat) (a : A) : upd f i a i = a.
Proof. unfold upd. now rewrite Nat.eqb_refl. Qed.

Lemma upd_other {A : Type} (f : nat -> A) (i j : nat) (a : A) :
  j <> i -> upd f i a j = f j.
Proof. unfold upd. intros H. apply Nat.eqb_neq in H. now rewrite H. Qed.

Lemma is_class_same (k : exn_kind) (msg : string) : is_class k (Exn k msg) = true.
Proof. unfold is_class. now apply bool_decide_eq_true. Qed.

Ltac unfold_monad :=
  unfold getName, getFileName, getWorkingDirectory, getStdFile, getId,
    getAllProcesses, SimuLogger_info, SimuLogger_warning, os_path_exists,
    os_getcwd, getattr, setattr in *;
  unfold bind, ret, gets, modify, raise, try_except in *.

Ltac mrun := repeat (progress (cbn; rewrite ?upd_same, ?is_class_same)).

Ltac frame := intros; rewrite ?upd_other by assumption; reflexivity.

(** ** The constructor *)

(** Every way [Process(filename, id, workingDirectory)] can end. *)
Lemma new_Process_cases (filename id : string) (wd : option string)
  (s : State) (res : result ref) (s1 : State) :
  new_Process filename id wd s = (res, s1) ->
  let r := heap_next s in
  (heap_next s1 = S r /\
   (forall r', r' <> r -> heap s1 r' = heap s r') /\
   processContainer s1 = processContainer s /\
   procs (os s1) = procs (os s) /\
   nprocs (os s1) = nprocs (os s) /\
   _processHandler (heap s1 r) = Value None) /\
  if fs_exists (os s) filename then
    match wd_missing wd s with
    | Some d =>
        res = Raise (Exn FileNotFoundError
                ("Working directory does not exists: " +:+ quoted d)) /\
        os s1 = os s /\ trace s1 = trace s
    | None =>
        _workingDirectory (heap s1 r) = Some (effective_wd wd s) /\
        match split dot (basename (normpath filename)) with
        | [name; ext] =>
            let path := std_filename (effective_wd wd s) name in
            match open_error (os s) path with
            | Some e =>
                res = Raise e /\
                os s1 = os s /\
                trace s1 = trace s ++ default_warnings filename wd s
                             ++ [EvOpen path "w"]
            | None =>
                res = Ok r /\
                heap s1 r = constructed filename id (effective_wd wd s)
                              (length (files (os s))) /\
                os s1 = os_create_file path (os s) /\
                trace s1 = trace s ++ default_warnings filename wd s
                             ++ [EvOpen path "w";
                                 EvLog INFO ("New process created: "
                                             +:+ quoted (normpath filename))]
            end
        | _ =>
            res = Raise (unpack2_error (split dot (basename (normpath filename)))) /\
            os s1 = os s /\
            trace s1 = trace s ++ default_warnings filename wd s
        end
    end
  else
    res = Raise (Exn FileNotFoundError
            ("File does not exists: " +:+ quoted filename)) /\
    os s1 = os s /\ trace s1 = trace s.
Proof.
  unfold new_Process, __init__, __validateFileName, __validateWorkingDirectory,
    __configureStdFile, open_w, unpack2, wd_missing.
  unfold_monad. mrun.
  destruct (fs_exists (os s) filename) eqn:Hf; mrun.
  2: { intros [= <- <-]. mrun. repeat split; auto; frame. }
  destruct wd as [d|]; mrun.
  1: destruct (fs_exists (os s) d) eqn:Hd; mrun.
  2: { intros [= <- <-]. mrun. repeat split; auto; frame. }
  all: destruct (split dot (basename (normpath filename))) as [|name [|ext [|]]];
    unfold unpack2_error; mrun.
  3, 7: destruct (open_error (os s) _) eqn:Ho; mrun.
  all: intros [= <- <-]; mrun; rewrite ?app_nil_r; repeat split; eauto;
    try frame; now rewrite <- ?app_assoc.
Qed.

(** What a successful construction tells. *)
Lemma new_Process_ok_inv (filename id : string) (wd : option string)
  (s : State) (r : ref) (s1 : State) :
  new_Process filename id wd s = (Ok r, s1) ->
  r = heap_next s /\
  fs_exists (os s) filename = true /\
  wd_missing wd s = None /\
  exists name ext,
    split dot (basename (normpath filename)) = [name; ext] /\
    let path := std_filename (effective_wd wd s) name in
    open_error (os s) path = None /\
    heap s1 r = constructed filename id (effective_wd wd s)
                  (length (files (os s))) /\
    os s1 = os_create_file path (os s) /\
    trace s1 = trace s ++ default_warnings filename wd s
                 ++ [EvOpen path "w";
                     EvLog INFO ("New process created: "
                                 +:+ quoted (normpath filename))].
Proof.
  intros Hnew.
  pose proof (new_Process_cases _ _ _ _ _ _ Hnew) as [_ Hcase].
  cbn zeta in Hcase. destruct (fs_exists (os s) filename).
  - destruct (wd_missing wd s); [now destruct Hcase|].
    destruct Hcase as [_ Hcase].
    destruct (split dot (basename (normpath filename))) as [|n [|x [|]]];
      try (destruct Hcase as [Hm _]; discriminate).
    destruct (open_error (os s) _) eqn:Ho; [now destruct Hcase|].
    destruct Hcase as ([= ->] & Hheap & Hos & Htr).
    repeat split; auto. exists n, x. cbn zeta. auto.
  - now destruct Hcase.
Qed.

(** ** [start] and [stop] *)

(** [start] never raises: it returns the error of the spawn, or [None]
    with the new [Popen] object stored in the object. *)
Lemma start_spec (self : ref) (s : State) :
  let p := heap s self in
  exists s',
    match spawn_oracle (os s) (spawn_count (os s)) (_filename p)
            (_workingDirectory p) with
    | inl e =>
        start self s = (Ok (Some e), s') /\
        heap s' self = set_processHandler (Value None) p /\
        trace s' = trace s ++ [popen_event p] /\
        nprocs (os s') = nprocs (os s) /\
        procs (os s') = procs (os s)
    | inr grace =>
        let h := nprocs (os s) in
        start self s = (Ok None, s') /\
        heap s' self = set_processHandler (Value (Some h)) p /\
        trace s' = trace s ++
          [popen_event p;
           EvLog INFO ("Process " +:+ quoted (str_opt (_name p))
                       +:+ " started: " +:+ popen_repr (os s) h)] /\
        nprocs (os s') = S h /\
        procs (os s') h = spawned p grace /\
        (forall h', h' <> h -> procs (os s') h' = procs (os s) h')
    end /\
    (forall r, r <> self -> heap s' r = heap s r) /\
    heap_next s' = heap_next s /\
    processContainer s' = processContainer s /\
    files (os s') = files (os s).
Proof.
  unfold start, Popen, getProcessHandler, str_handler, popen_event, spawned.
  unfold_monad. mrun.
  destruct (spawn_oracle _ _ _ _) as [e|grace]; mrun.
  - eexists. split; [split; [reflexivity|]|]; mrun; repeat split; auto; frame.
  - eexists. split; [split; [reflexivity|]|]; mrun; repeat split; auto;
      try frame.
    now rewrite <- !app_assoc.
Qed.

(** [stop] on an object that holds a [Popen] object. *)
Lemma stop_spec (self : ref) (h : handle) (s : State) :
  _processHandler (heap s self) = Value (Some h) ->
  exists s',
    stop self s = (Ok tt, s') /\
    trace s' = trace s ++ stop_events (_name (heap s self)) h (procs (os s) h) /\
    heap s' self = set_processHandler Deleted (heap s self) /\
    (forall r, r <> self -> heap s' r = heap s r) /\
    heap_next s' = heap_next s /\
    processContainer s' = processContainer s /\
    nprocs (os s') = nprocs (os s) /\
    (forall h', h' <> h -> procs (os s') h' = procs (os s) h').
Proof.
  intros Hh.
  unfold stop, processHandler_method, getProcessHandler, del_processHandler,
    Popen_terminate, Popen_wait, Popen_kill, stop_events, terminated_msg,
    killed_msg.
  unfold_monad. unfold after_signal.
  repeat (progress (mrun; rewrite ?Hh)).
  destruct (exit_code_within 20 _) as [rc|] eqn:He;
    repeat (progress (mrun; rewrite ?Hh)).
  all: eexists; split; [reflexivity|]; mrun; repeat split; auto; try frame;
    now rewrite <- !app_assoc.
Qed.

(** [stop] on an object whose [_processHandler] is [None] or deleted
    raises at once and changes nothing. *)
Lemma stop_without_handler (self : ref) (s : State) :
  handle_of s self = None ->
  exists e, stop self s = (Raise e, s) /\ exn_class e = AttributeError.
Proof.
  unfold handle_of, stop, processHandler_method, getProcessHandler.
  unfold_monad. mrun.
  destruct (_processHandler (heap s self)) as [|[h|]]; mrun;
    try discriminate; intros _; eexists; split; reflexivity.
Qed.

(** ** The registry operations, unfolded *)

Lemma startProcessFromFileName_eq (filename id : string) (wd : option string)
  (s : State) :
  startProcessFromFileName filename id wd s =
  match new_Process filename id wd s with
  | (Raise e, s1) => (Ok (None, Some e), s1)
  | (Ok r, s1) =>
      match start r s1 with
      | (Ok None, s2) =>
          (Ok (Some r, None), with_container (dict_set (_id (heap s2 r)) r) s2)
      | (Ok (Some e), s2) =>
          (Ok (Some r, Some (could_not_be_started (_name (heap s2 r)) e)), s2)
      | (Raise e, s2) => (Ok (Some r, Some e), s2)
      end
  end.
Proof.
  unfold startProcessFromFileName, _getProcessFromFileName, _startProcess,
    could_not_be_started.
  unfold_monad.
  destruct (new_Process filename id wd s) as [[r|e] s1]; cbn; [|reflexivity].
  destruct (start r s1) as [[[e|]|e] s2]; reflexivity.
Qed.

Lemma stopProcess_eq (id : string) (s : State) :
  stopProcess id s =
  match dict_get id (processContainer s) with
  | Some r =>
      match stop r (with_container (fun _ => dict_remove id (processContainer s)) s) with
      | (Ok _, s') => (Ok None, s')
      | (Raise e, s') => (Raise e, s')
      end
  | None => (Ok (Some ("No process ID with name: " +:+ quoted id)), s)
  end.
Proof.
  unfold stopProcess, dict_pop. unfold_monad. cbn beta.
  pose proof (dict_mem_get id (processContainer s)) as Hm.
  destruct (dict_get id (processContainer s)) as [r|] eqn:Hg.
  - rewrite (proj2 Hm) by eauto. cbn. rewrite Hg.
    destruct (stop r _) as [[[]|e] s']; reflexivity.
  - destruct (dict_mem id (processContainer s)); [|reflexivity].
    destruct (proj1 Hm eq_refl); discriminate.
Qed.

Lemma stopAllProcesses_eq (s : State) :
  stopAllProcesses s =
  match processContainer s with
  | [] =>
      (Ok (Some "There is no simulation process currently running to be stopped"),
       s)
  | _ :: _ =>
      match for_each (dict_values (processContainer s)) stop s with
      | (Ok _, s') => (Ok None, with_container (fun _ => []) s')
      | (Raise e, s') => (Raise e, s')
      end
  end.
Proof.
  unfold stopAllProcesses. unfold_monad. cbn beta iota.
  destruct (processContainer s) as [|kv c] eqn:Hc; [reflexivity|].
  cbn beta iota. rewrite Hc.
  destruct (for_each _ stop s) as [[[]|e] s']; reflexivity.
Qed.

(** ** Stopping every process of a list *)

Lemma handle_of_Some (s : State) (r : ref) (h : handle) :
  handle_of s r = Some h <-> _processHandler (heap s r) = Value (Some h).
Proof.
  unfold handle_of. destruct (_processHandler (heap s r)) as [|v].
  - split; discriminate.
  - split; congruence.
Qed.

Lemma for_each_stop (rs : list ref) : forall s,
  Forall (fun r => is_Some (handle_of s r)) rs ->
  NoDup (handle_of s <$> rs) ->
  exists s',
    for_each rs stop s = (Ok tt, s') /\
    trace s' = trace s ++ concat (stop_events_of s <$> rs) /\
    (forall r, r ∈ rs -> _processHandler (heap s' r) = Deleted) /\
    (forall r, r ∉ rs -> heap s' r = heap s r) /\
    heap_next s' = heap_next s /\
    processContainer s' = processContainer s /\
    nprocs (os s') = nprocs (os s).
Proof.
  induction rs as [|r rs IH]; intros s Hall Hnd.
  - exists s. cbn. rewrite app_nil_r. repeat split; auto.
    intros r Hr. inversion Hr.
  - apply Forall_cons in Hall as [[h Hh] Hall].
    rewrite fmap_cons in Hnd. apply NoDup_cons in Hnd as [Hfresh Hnd].
    destruct (stop_spec r h s (proj1 (handle_of_Some s r h) Hh))
      as (s1 & Hstop & Htr & Hself & Hframe & Hnext & Hcont & Hnp & Hprocs).
    assert (Hne : forall r', r' ∈ rs -> r' <> r).
    { intros r' Hr' ->. apply Hfresh. now apply list_elem_of_fmap_2. }
    assert (Hsame : forall r', r' ∈ rs -> handle_of s1 r' = handle_of s r').
    { intros r' Hr'. unfold handle_of. now rewrite Hframe by auto. }
    assert (Hev : forall r', r' ∈ rs -> stop_events_of s1 r' = stop_events_of s r').
    { intros r' Hr'. unfold stop_events_of. rewrite Hsame by assumption.
      destruct (handle_of s r') as [h'|] eqn:Hh'; [|reflexivity].
      rewrite Hframe by auto. rewrite Hprocs; [reflexivity|].
      intros ->. apply Hfresh. rewrite Hh, <- Hh'.
      now apply list_elem_of_fmap_2. }
    destruct (IH s1) as (s' & Hrun & Htr' & Hdel & Hframe' & Hnext' & Hcont' & Hnp').
    { apply Forall_forall. intros r' Hr'. rewrite Hsame by assumption.
      now apply (proj1 (Forall_forall _ _) Hall). }
    { erewrite list_fmap_ext; [exact Hnd|]. intros i r' Hr'.
      apply Hsame. eapply list_elem_of_lookup_2. exact Hr'. }
    exists s'. cbn [for_each]. unfold bind at 1. rewrite Hstop, Hrun.
    repeat split.
    + rewrite Htr', Htr. rewrite fmap_cons. cbn [concat].
      rewrite <- app_assoc. f_equal. f_equal.
      * unfold stop_events_of. now rewrite Hh.
      * f_equal. apply list_fmap_ext. intros i r' Hr'. apply Hev.
        eapply list_elem_of_lookup_2. exact Hr'.
    + intros r' Hr'. apply elem_of_cons in Hr' as [->|Hr']; [|auto].
      destruct (decide (r ∈ rs)) as [Hin|Hout]; [auto|].
      rewrite Hframe' by assumption. now rewrite Hself.
    + intros r' Hr'. rewrite not_elem_of_cons in Hr'. destruct Hr' as [Hr1 Hr2].
      rewrite Hframe' by assumption. auto.
    + congruence.
    + congruence.
    + congruence.
Qed.

(** ** The registry invariant *)

Lemma registry_inv_empty (s : State) : processContainer s = [] -> registry_inv s.
Proof.
  intros H. unfold registry_inv, dict_keys, dict_values. rewrite H. cbn.
  repeat split; constructor.
Qed.

(** The invariant only looks at the registered objects. *)
Lemma registry_inv_transfer (s s' : State) :
  registry_inv s ->
  processContainer s' = processContainer s ->
  (forall r, r ∈ dict_values (processContainer s) -> heap s' r = heap s r) ->
  (heap_next s <= heap_next s')%nat ->
  (nprocs (os s) <= nprocs (os s'))%nat ->
  registry_inv s'.
Proof.
  intros (Hk & Hh & Hall) Hc Hheap Hnext Hnp.
  assert (Hsame : forall r, r ∈ dict_values (processContainer s) ->
                            handle_of s' r = handle_of s r).
  { intros r Hr. unfold handle_of. now rewrite Hheap. }
  unfold registry_inv. rewrite Hc. repeat split; [assumption| |].
  - erewrite list_fmap_ext; [exact Hh|]. intros i r Hr.
    apply Hsame. eapply list_elem_of_lookup_2. exact Hr.
  - apply Forall_forall. intros r Hr.
    destruct (proj1 (Forall_forall _ _) Hall r Hr) as (Hlt & h & Hho & Hhl).
    split; [lia|]. exists h. rewrite Hsame by assumption. split; [assumption|lia].
Qed.

Lemma dict_set_fresh_NoDup {X : Type} (f : ref -> X) (k : string) (r : ref)
  (c : dict ref) :
  NoDup (f <$> dict_values c) ->
  f r ∉ f <$> dict_values c ->
  NoDup (f <$> dict_values (dict_set k r c)).
Proof.
  unfold dict_values. induction c as [|[k' v'] c IH]; cbn; intros Hnd Hfresh.
  - apply NoDup_singleton.
  - apply NoDup_cons in Hnd as [Hv' Hnd].
    apply not_elem_of_cons in Hfresh as [Hne Hfresh].
    destruct (String.eqb k' k); cbn.
    + apply NoDup_cons. split; assumption.
    + apply NoDup_cons. split; [|auto].
      intros Hin. apply list_elem_of_fmap in Hin as (x & Hx & Hin).
      apply (dict_set_values k r c x) in Hin as [->|Hin]; [congruence|].
      apply Hv'. rewrite Hx. now apply list_elem_of_fmap_2.
Qed.

(** Registering a started object under any key keeps the invariant. *)
Lemma registry_inv_set (s : State) (k : string) (r : ref) (h : handle) :
  registry_inv s ->
  handle_of s r = Some h ->
  (r < heap_next s)%nat ->
  (h < nprocs (os s))%nat ->
  (forall r', r' ∈ dict_values (processContainer s) -> handle_of s r' <> Some h) ->
  registry_inv (with_container (dict_set k r) s).
Proof.
  intros (Hk & Hh & Hall) Hr Hlt Hhl Hfresh. unfold registry_inv. cbn.
  repeat split.
  - now apply dict_set_NoDup.
  - apply (dict_set_fresh_NoDup (handle_of s)); [assumption|].
    intros Hin. apply list_elem_of_fmap in Hin as (r' & Hr' & Hin).
    apply (Hfresh r' Hin). congruence.
  - apply Forall_forall. intros r' Hr'.
    apply dict_set_values in Hr' as [->|Hr'].
    + split; [assumption|]. exists h. auto.
    + exact (proj1 (Forall_forall _ _) Hall r' Hr').
Qed.

Lemma dict_remove_values_sublist (k : string) (c : dict ref) :
  sublist (dict_values (dict_remove k c)) (dict_values c).
Proof. unfold dict_values. apply fmap_sublist, dict_remove_sublist. Qed.

Lemma dict_remove_not_in (k : string) (r : ref) (c : dict ref) :
  NoDup (dict_values c) -> dict_get k c = Some r ->
  r ∉ dict_values (dict_remove k c).
Proof.
  unfold dict_values. induction c as [|[k' v'] c IH]; cbn; [discriminate|].
  intros Hnd. apply NoDup_cons in Hnd as [Hv' Hnd].
  destruct (String.eqb k' k); cbn.
  - now intros [= ->].
  - intros Hg. apply not_elem_of_cons. split; [|auto].
    intros ->. apply Hv'. exact (dict_get_values k v' c Hg).
Qed.

(** Taking an entry out keeps the invariant. *)
Lemma registry_inv_remove (s : State) (k : string) :
  registry_inv s ->
  registry_inv (with_container (fun _ => dict_remove k (processContainer s)) s).
Proof.
  intros (Hk & Hh & Hall). unfold registry_inv. cbn. repeat split.
  - eapply sublist_NoDup; [exact Hk|].
    unfold dict_keys. apply fmap_sublist, dict_remove_sublist.
  - eapply sublist_NoDup; [exact Hh|].
    apply fmap_sublist, dict_remove_values_sublist.
  - apply Forall_forall. intros r Hr.
    apply (proj1 (Forall_forall _ _) Hall).
    eapply elem_of_sublist; [exact Hr|apply dict_remove_values_sublist].
Qed.

Lemma registry_inv_handles (s : State) :
  registry_inv s ->
  Forall (fun r => is_Some (handle_of s r)) (dict_values (processContainer s)).
Proof.
  intros (_ & _ & Hall). eapply Forall_impl; [exact Hall|].
  intros r (_ & h & Hh & _). eauto.
Qed.

Lemma registry_inv_lookup (s : State) (k : string) (r : ref) :
  registry_inv s -> dict_get k (processContainer s) = Some r ->
  (r < heap_next s)%nat /\
  exists h, _processHandler (heap s r) = Value (Some h) /\ (h < nprocs (os s))%nat.
Proof.
  intros (_ & _ & Hall) Hg.
  destruct (proj1 (Forall_forall _ _) Hall r (dict_get_values _ _ _ Hg))
    as (Hlt & h & Hh & Hhl).
  split; [assumption|]. exists h. split; [|assumption]. now apply handle_of_Some.
Qed.
(** ** The registry operations keep the invariant *)

(** [stop] never touches the registry. *)
Lemma stop_container (r : ref) (s : State) :
  processContainer (snd (stop r s)) = processContainer s.
Proof.
  destruct (handle_of s r) as [h|] eqn:Hh.
  - apply handle_of_Some in Hh.
    destruct (stop_spec r h s Hh) as (s' & -> & _ & _ & _ & _ & Hc & _).
    exact Hc.
  - destruct (stop_without_handler r s Hh) as (e & -> & _). reflexivity.
Qed.

Lemma for_each_stop_container (rs : list ref) (s : State) :
  processContainer (snd (for_each rs stop s)) = processContainer s.
Proof.
  revert s. induction rs as [|r rs IH]; intros s; [reflexivity|].
  cbn [for_each]. unfold bind at 1.
  pose proof (stop_container r s) as Hc.
  destruct (stop r s) as [[[]|e] s1]; cbn in *; [|assumption].
  now rewrite IH.
Qed.

Lemma start_container (r : ref) (s : State) :
  processContainer (snd (start r s)) = processContainer s.
Proof.
  destruct (start_spec r s) as (s' & Hcase & _ & _ & Hc & _).
  destruct (spawn_oracle _ _ _ _); destruct Hcase as (-> & _); exact Hc.
Qed.

(** The registry after [startProcessFromFileName]: the new object under
    its key when construction and start both succeed, the old registry
    otherwise. *)
Lemma startProcessFromFileName_container (filename id : string)
  (wd : option string) (s : State) :
  let out := startProcessFromFileName filename id wd s in
  processContainer (snd out) =
  match fst out with
  | Ok (Some r, None) => dict_set id r (processContainer s)
  | _ => processContainer s
  end.
Proof.
  cbn zeta. rewrite startProcessFromFileName_eq.
  destruct (new_Process filename id wd s) as [res s1] eqn:Hnew.
  pose proof (new_Process_cases _ _ _ _ _ _ Hnew) as [(_ & _ & Hc1 & _) Hcase].
  destruct res as [r|e]; [|exact Hc1].
  assert (Hid : _id (heap s1 r) = id).
  { destruct (new_Process_ok_inv _ _ _ _ _ _ Hnew)
      as (_ & _ & _ & n & x & _ & _ & -> & _). reflexivity. }
  pose proof (start_container r s1) as Hc2.
  destruct (start_spec r s1) as (s2 & Hst & Hframe & _).
  destruct (spawn_oracle _ _ _ _).
  - destruct Hst as (Hst & _). rewrite Hst in *. cbn in *. congruence.
  - destruct Hst as (Hst & Hh & _). rewrite Hst in *. cbn in *.
    rewrite Hh. cbn. rewrite Hid. congruence.
Qed.

Lemma keys_NoDup_step (o : op) (s : State) :
  NoDup (dict_keys (processContainer s)) ->
  NoDup (dict_keys (processContainer (step o s))).
Proof.
  intros Hk. destruct o as [filename id wd|id|]; cbn [step].
  - rewrite startProcessFromFileName_container.
    destruct (fst _) as [[[r|] [e|]]|e]; auto using dict_set_NoDup.
  - rewrite stopProcess_eq.
    destruct (dict_get id (processContainer s)) as [r|]; [|exact Hk].
    pose proof (stop_container r
      (with_container (fun _ => dict_remove id (processContainer s)) s)) as Hc.
    destruct (stop r _) as [[[]|e] s']; cbn in *; rewrite Hc;
      (eapply sublist_NoDup; [exact Hk|]);
      unfold dict_keys; apply fmap_sublist, dict_remove_sublist.
  - rewrite stopAllProcesses_eq.
    destruct (processContainer s) as [|kv c] eqn:Hc; [cbn; now rewrite Hc|].
    pose proof (for_each_stop_container (dict_values (kv :: c)) s) as Hf.
    destruct (for_each _ stop s) as [[[]|e] s']; cbn in *.
    + constructor.
    + rewrite Hf, Hc. exact Hk.
Qed.

Lemma registry_inv_step (o : op) (s : State) :
  registry_inv s -> registry_inv (step o s).
Proof.
  intros Hinv. destruct o as [filename id wd|id|]; cbn [step].
  - rewrite startProcessFromFileName_eq.
    destruct (new_Process filename id wd s) as [res s1] eqn:Hnew.
    pose proof (new_Process_cases _ _ _ _ _ _ Hnew)
      as [(Hnext & Hheap & Hc1 & _ & Hnp & _) Hcase].
    assert (Hold : forall r, r ∈ dict_values (processContainer s) ->
                             r <> heap_next s).
    { intros r Hr. destruct Hinv as (_ & _ & Hall).
      destruct (proj1 (Forall_forall _ _) Hall r Hr) as [Hlt _]. lia. }
    assert (Hinv1 : registry_inv s1).
    { apply (registry_inv_transfer s);
        [assumption|assumption|intros r Hr; apply Hheap; auto|lia|lia]. }
    destruct res as [r|e]; [|exact Hinv1].
    assert (Hr : r = heap_next s)
      by exact (proj1 (new_Process_ok_inv _ _ _ _ _ _ Hnew)).
    subst r.
    assert (Hold1 : forall r, r ∈ dict_values (processContainer s1) ->
                              r <> heap_next s) by (rewrite Hc1; exact Hold).
    destruct (start_spec (heap_next s) s1) as (s2 & Hst & Hframe & Hnext2 & Hc2 & _).
    destruct (spawn_oracle _ _ _ _) as [e|grace].
    + destruct Hst as (-> & _ & _ & Hnp2 & _). cbn [snd].
      apply (registry_inv_transfer s1);
        [assumption|assumption|intros r Hr; apply Hframe; auto|lia|lia].
    + destruct Hst as (-> & Hh & _ & Hnp2 & _). cbn [snd].
      assert (Hinv2 : registry_inv s2).
      { apply (registry_inv_transfer s1);
          [assumption|assumption|intros r Hr; apply Hframe; auto|lia|lia]. }
      apply (registry_inv_set s2 _ _ (nprocs (os s1))); auto.
      * unfold handle_of. now rewrite Hh.
      * lia.
      * lia.
      * intros r' Hr' Heq. rewrite Hc2 in Hr'.
        destruct Hinv1 as (_ & _ & Hall).
        destruct (proj1 (Forall_forall _ _) Hall r' Hr') as (_ & h & Hh' & Hlt).
        unfold handle_of in Heq, Hh'. rewrite Hframe in Heq by auto.
        rewrite Hh' in Heq. injection Heq as ->. lia.
  - rewrite stopProcess_eq.
    destruct (dict_get id (processContainer s)) as [r|] eqn:Hg; [|exact Hinv].
    destruct (registry_inv_lookup s id r Hinv Hg) as (_ & h & Hh & _).
    pose proof (registry_inv_remove s id Hinv) as Hinv0.
    set (s0 := with_container _ s) in *.
    destruct (stop_spec r h s0 Hh)
      as (s' & -> & _ & _ & Hframe & Hnext & Hc & Hnp & _).
    cbn [snd]. apply (registry_inv_transfer s0); auto; try lia.
    intros r' Hr'. apply Hframe. intros ->.
    destruct Hinv as (_ & Hnd & _). apply NoDup_fmap_1 in Hnd.
    exact (dict_remove_not_in id r _ Hnd Hg Hr').
  - rewrite stopAllProcesses_eq.
    destruct (processContainer s) as [|kv c] eqn:Hc; [exact Hinv|].
    destruct (for_each_stop (dict_values (processContainer s)) s)
      as (s' & Hrun & _).
    + now apply registry_inv_handles.
    + now destruct Hinv as (_ & Hnd & _).
    + rewrite Hc in Hrun. rewrite Hrun. now apply registry_inv_empty.
Qed.

Lemma registry_inv_run (ops : list op) : forall s,
  registry_inv s -> registry_inv (run ops s).
Proof.
  induction ops as [|o ops IH]; intros s Hinv; [exact Hinv|].
  cbn. apply IH. now apply registry_inv_step.
Qed.

(** * The claims *)

(** C1. On a [Process] whose [start()] succeeded, [stop()] first sends the
    termination signal, then waits up to 20 seconds; when the process
    exits within the timeout no kill is issued, otherwise the process is
    killed; either way [stop()] returns and the [_processHandler]
    attribute is released. *)
Theorem stop_after_start (r : ref) (s0 s : State) :
  start r s0 = (Ok None, s) ->
  exists h,
    _processHandler (heap s r) = Value (Some h) /\
    forall s1, _processHandler (heap s1 r) = Value (Some h) ->
      let name := _name (heap s1 r) in
      let s2 := snd (stop r s1) in
      fst (stop r s1) = Ok tt /\
      _processHandler (heap s2 r) = Deleted /\
      match exit_code_within 20 (after_signal (procs (os s1) h)) with
      | Some rc =>
          trace s2 = trace s1 ++
            [EvTerminate h; EvWait h 20; EvLog INFO (terminated_msg name rc)] /\
          List.filter is_kill (trace s2) = List.filter is_kill (trace s1)
      | None =>
          trace s2 = trace s1 ++
            [EvTerminate h; EvWait h 20; EvKill h; EvLog INFO (killed_msg name)] /\
          List.filter is_kill (trace s2)
          = List.filter is_kill (trace s1) ++ [EvKill h]
      end.
Proof.
  intros Hstart.
  destruct (start_spec r s0) as (s' & Hcase & _).
  destruct (spawn_oracle _ _ _ _) as [e|grace].
  { destruct Hcase as (Hst & _). rewrite Hst in Hstart. discriminate. }
  destruct Hcase as (Hst & Hh & _). rewrite Hst in Hstart.
  injection Hstart as <-.
  exists (nprocs (os s0)). split; [now rewrite Hh|].
  intros s1 Hh1.
  destruct (stop_spec r _ s1 Hh1) as (s2 & Hstop & Htr & Hself & _).
  rewrite Hstop. cbn [fst snd]. split; [reflexivity|].
  split; [now rewrite Hself|].
  unfold stop_events in Htr.
  destruct (exit_code_within 20 _); (split; [exact Htr|]);
    rewrite Htr, List.filter_app; cbn; now rewrite ?app_nil_r.
Qed.

(** C2. When the executable path does not exist, or the working directory
    is given and does not exist, construction raises [FileNotFoundError]
    with a message that quotes a missing path, and nothing is opened:
    the operating system and the trace are unchanged. *)
Theorem construct_missing_path (filename id : string) (wd : option string)
  (s : State) :
  fs_exists (os s) filename = false \/
  (exists d, wd = Some d /\ fs_exists (os s) d = false) ->
  exists path prefix s',
    new_Process filename id wd s
    = (Raise (Exn FileNotFoundError (prefix +:+ quoted path)), s') /\
    (path = filename \/ wd = Some path) /\
    fs_exists (os s) path = false /\
    (fs_exists (os s) filename = false -> path = filename) /\
    os s' = os s /\ trace s' = trace s /\
    processContainer s' = processContainer s.
Proof.
  intros H.
  destruct (new_Process filename id wd s) as [res s'] eqn:Hnew.
  pose proof (new_Process_cases _ _ _ _ _ _ Hnew) as [(_ & _ & Hc & _) Hcase].
  cbn zeta in Hcase.
  destruct (fs_exists (os s) filename) eqn:Hf.
  - destruct H as [H|(d & -> & Hd)]; [discriminate|].
    cbn in Hcase. rewrite Hd in Hcase. destruct Hcase as (-> & Hos & Htr).
    exists d, "Working directory does not exists: ", s'.
    repeat split; auto. discriminate.
  - destruct Hcase as (-> & Hos & Htr).
    exists filename, "File does not exists: ", s'. repeat split; auto.
Qed.

(** C9, as the code has it.  After construction the handle is [None];
    a failed [start()] leaves it [None]; a successful one stores a [Popen]
    object, which stays until [stop()]; [stop()] deletes the attribute, so
    that reading it afterwards raises [AttributeError] instead of giving
    [None]. *)
Theorem handler_lifecycle (filename id : string) (wd : option string)
  (s : State) (r : ref) (s1 : State) :
  new_Process filename id wd s = (Ok r, s1) ->
  getProcessHandler r s1 = (Ok None, s1) /\
  forall s2,
    let s3 := snd (start r s2) in
    match fst (start r s2) with
    | Ok None =>
        exists h,
          getProcessHandler r s3 = (Ok (Some h), s3) /\
          forall s4, _processHandler (heap s4 r) = Value (Some h) ->
            let s5 := snd (stop r s4) in
            fst (stop r s4) = Ok tt /\
            _processHandler (heap s5 r) = Deleted /\
            getProcessHandler r s5
            = (Raise (no_attribute "Process" "_processHandler"), s5)
    | Ok (Some _) => getProcessHandler r s3 = (Ok None, s3)
    | Raise _ => False
    end.
Proof.
  intros Hnew.
  pose proof (new_Process_cases _ _ _ _ _ _ Hnew) as [(_ & _ & _ & _ & _ & Hnone) Hcase].
  assert (Hr : r = heap_next s)
    by exact (proj1 (new_Process_ok_inv _ _ _ _ _ _ Hnew)).
  subst r. split.
  { unfold getProcessHandler. unfold_monad. now rewrite Hnone. }
  intros s2.
  destruct (start_spec (heap_next s) s2) as (s3 & Hcase' & _).
  destruct (spawn_oracle _ _ _ _) as [e|grace].
  - destruct Hcase' as (-> & Hh & _). cbn [fst snd].
    unfold getProcessHandler. unfold_monad. now rewrite Hh.
  - destruct Hcase' as (-> & Hh & _). cbn [fst snd].
    exists (nprocs (os s2)). split.
    { unfold getProcessHandler. unfold_monad. now rewrite Hh. }
    intros s4 Hh4.
    destruct (stop_spec _ _ s4 Hh4) as (s5 & -> & _ & Hself & _).
    cbn [fst snd]. split; [reflexivity|].
    assert (Hdel : _processHandler (heap s5 (heap_next s)) = Deleted)
      by now rewrite Hself.
    split; [exact Hdel|].
    unfold getProcessHandler. unfold_monad. now rewrite Hdel.
Qed.

Lemma unpack2_error_class (parts : list string) :
  exn_class (unpack2_error parts) = ValueError.
Proof. now destruct parts as [|a [|b [|c l]]]. Qed.

Lemma default_warnings_no_open (filename : string) (wd : option string)
  (s : State) :
  List.filter is_open (default_warnings filename wd s) = [].
Proof. now destruct wd. Qed.

(** C3. When the [Process] is constructed but [start()] fails,
    [startProcessFromFileName] returns an [AssertionError] that names the
    process and carries the detail of the failure; the handle of the
    process stays [None] and the registry is left as it was, without the
    new process. *)
Theorem start_failure_not_registered (filename id : string)
  (wd : option string) (s : State) (r : ref) (s1 : State) (detail : exn)
  (s2 : State) :
  new_Process filename id wd s = (Ok r, s1) ->
  start r s1 = (Ok (Some detail), s2) ->
  let name := basename (normpath filename) in
  let err :=
    Exn AssertionError
      ("Process " +:+ quoted name +:+ " could not be started: "
       +:+ exn_str detail) in
  startProcessFromFileName filename id wd s = (Ok (Some r, Some err), s2) /\
  start_simulation_process filename id wd s
  = (Raise (Exn AssertionError (exn_str err)), s2) /\
  _processHandler (heap s2 r) = Value None /\
  processContainer s2 = processContainer s /\
  (registry_inv s -> r ∉ dict_values (processContainer s2)).
Proof.
  intros Hnew Hstart name err.
  destruct (new_Process_ok_inv _ _ _ _ _ _ Hnew)
    as (Hr & _ & _ & n & x & _ & _ & Hheap & _).
  pose proof (new_Process_cases _ _ _ _ _ _ Hnew) as [(_ & _ & Hc1 & _) _].
  destruct (start_spec r s1) as (s' & Hcase & _ & _ & Hc2 & _).
  destruct (spawn_oracle _ _ _ _) as [e|grace].
  2: { destruct Hcase as (Hst & _). rewrite Hst in Hstart. discriminate. }
  destruct Hcase as (Hst & Hh & _). rewrite Hst in Hstart.
  injection Hstart as -> ->.
  assert (Heq : startProcessFromFileName filename id wd s
                = (Ok (Some r, Some err), s2)).
  { rewrite startProcessFromFileName_eq, Hnew, Hst.
    now rewrite Hh, Hheap. }
  split; [exact Heq|]. split.
  { unfold start_simulation_process. unfold bind at 1. now rewrite Heq. }
  split; [now rewrite Hh|]. split; [congruence|].
  intros (_ & _ & Hall) Hin. rewrite Hc2, Hc1 in Hin.
  destruct (proj1 (Forall_forall _ _) Hall r Hin) as [Hlt _]. lia.
Qed.

(** C7. When construction succeeds for an executable whose base name is
    [name.ext], the log file [name.log] of the working directory is
    opened in write mode, exists afterwards and is the [_stdFile] of the
    process; [start()] then passes this one file as both the standard
    output and the standard error of the child process. *)
Theorem log_file_location (filename id : string) (wd : option string)
  (s : State) (r : ref) (s1 : State) (name ext : string) :
  new_Process filename id wd s = (Ok r, s1) ->
  basename (normpath filename) = name +:+ "." +:+ ext ->
  let path := normpath (join (effective_wd wd s) (name +:+ ".log")) in
  exists f,
    _workingDirectory (heap s1 r) = Some (effective_wd wd s) /\
    _stdFile (heap s1 r) = Some f /\
    files (os s1) !! f = Some path /\
    fs_exists (os s1) path = true /\
    List.filter is_open (trace s1)
    = List.filter is_open (trace s) ++ [EvOpen path "w"] /\
    forall s2, _stdFile (heap s2 r) = Some f ->
      let p := heap s2 r in
      let s3 := snd (start r s2) in
      (exists rest,
         trace s3 = trace s2 ++
           EvPopen (_filename p) (_workingDirectory p) (Some f) (Some f) :: rest) /\
      (fst (start r s2) = Ok None ->
       exists h,
         _processHandler (heap s3 r) = Value (Some h) /\
         proc_stdout (procs (os s3) h) = Some f /\
         proc_stderr (procs (os s3) h) = Some f).
Proof.
  intros Hnew Hbase path.
  destruct (new_Process_ok_inv _ _ _ _ _ _ Hnew)
    as (Hr & _ & _ & n & x & Hsplit & _ & Hheap & Hos & Htr).
  rewrite Hbase in Hsplit.
  change (name +:+ "." +:+ ext) with (name +:+ String dot ext) in Hsplit.
  apply split_two in Hsplit as [-> ->].
  fold path in Hos, Htr. unfold std_filename in Hos, Htr. fold path in Hos, Htr.
  exists (length (files (os s))).
  rewrite Hheap, Hos, Htr. cbn [_workingDirectory _stdFile constructed
    files fs_exists os_create_file].
  split; [reflexivity|]. split; [reflexivity|].
  split; [now apply list_lookup_middle|].
  split; [now rewrite String.eqb_refl|].
  split.
  { rewrite !List.filter_app, default_warnings_no_open. reflexivity. }
  intros s2 Hfile.
  destruct (start_spec r s2) as (s3 & Hcase & _). cbn zeta.
  destruct (spawn_oracle _ _ _ _).
  - destruct Hcase as (Hst & _ & Htr3 & _). rewrite Hst. cbn [fst snd].
    rewrite Htr3. unfold popen_event. rewrite Hfile.
    split; [eauto|discriminate].
  - destruct Hcase as (Hst & Hh & Htr3 & _ & Hp & _). rewrite Hst.
    cbn [fst snd]. rewrite Htr3. unfold popen_event. rewrite Hfile.
    split; [eauto|]. intros _.
    exists (nprocs (os s2)). rewrite Hh, Hp. cbn. now rewrite Hfile.
Qed.

(** C8, as the code has it.  For an existing executable whose base name
    does not contain exactly one dot, construction never succeeds; when
    moreover the working directory is omitted or exists, it fails with
    the [ValueError] of the unpacking, before any file is opened. *)
Theorem construct_bad_base_name (filename id : string) (wd : option string)
  (s : State) (res : result ref) (s1 : State) :
  fs_exists (os s) filename = true ->
  count_char dot (basename (normpath filename)) <> 1%nat ->
  new_Process filename id wd s = (res, s1) ->
  (forall r, res <> Ok r) /\
  (wd_missing wd s = None ->
   exists e,
     res = Raise e /\ exn_class e = ValueError /\
     os s1 = os s /\
     List.filter is_open (trace s1) = List.filter is_open (trace s)).
Proof.
  intros Hf Hdots Hnew.
  pose proof (split_not_two dot _ Hdots) as Hparts.
  split.
  - intros r ->.
    destruct (new_Process_ok_inv _ _ _ _ _ _ Hnew)
      as (_ & _ & _ & n & x & Hsplit & _).
    now rewrite Hsplit in Hparts.
  - intros Hwd.
    pose proof (new_Process_cases _ _ _ _ _ _ Hnew) as [_ Hcase].
    cbn zeta in Hcase. rewrite Hf, Hwd in Hcase. destruct Hcase as [_ Hcase].
    exists (unpack2_error (split dot (basename (normpath filename)))).
    rewrite unpack2_error_class.
    destruct (split dot (basename (normpath filename))) as [|n [|x [|]]];
      try contradiction;
      destruct Hcase as (-> & -> & ->);
      rewrite List.filter_app, default_warnings_no_open, app_nil_r; auto.
Qed.

(** C10, as the code has it.  With an existing executable and no working
    directory, the working directory becomes the current one and exactly
    one warning is logged; no path other than the executable is checked
    for existence; construction then succeeds exactly when the base name
    splits in two at the dot and the log file can be opened. *)
Theorem default_working_directory (filename id : string) (s : State)
  (res : result ref) (s1 : State) :
  fs_exists (os s) filename = true ->
  new_Process filename id None s = (res, s1) ->
  let r := heap_next s in
  _workingDirectory (heap s1 r) = Some (os_cwd (os s)) /\
  List.filter is_warning (trace s1)
  = List.filter is_warning (trace s) ++ [default_warning filename s] /\
  (res = Ok r <->
   exists name ext,
     split dot (basename (normpath filename)) = [name; ext] /\
     open_error (os s) (std_filename (os_cwd (os s)) name) = None) /\
  (forall ex, ex filename = true ->
     fst (new_Process filename id None (with_fs_exists ex s)) = res).
Proof.
  intros Hf Hnew r.
  pose proof (new_Process_cases _ _ _ _ _ _ Hnew) as [_ Hcase].
  cbn zeta in Hcase. rewrite Hf in Hcase. cbn in Hcase.
  destruct Hcase as [Hwd Hcase]. split; [exact Hwd|].
  assert (Hex : forall ex, ex filename = true ->
            fst (new_Process filename id None (with_fs_exists ex s)) = res).
  { intros ex Hex.
    destruct (new_Process filename id None (with_fs_exists ex s))
      as [res' s1'] eqn:Hnew'.
    pose proof (new_Process_cases _ _ _ _ _ _ Hnew') as [_ Hcase'].
    cbn in Hcase'. rewrite Hex in Hcase'. destruct Hcase' as [_ Hcase'].
    cbn [fst].
    destruct (split dot (basename (normpath filename))) as [|n [|x [|]]];
      try (destruct Hcase as [-> _]; now destruct Hcase' as [-> _]).
    unfold std_filename, effective_wd in *. cbn in Hcase'.
    destruct (open_error (os s) _);
      destruct Hcase as [-> _]; now destruct Hcase' as [-> _]. }
  unfold std_filename in *.
  destruct (split dot (basename (normpath filename))) as [|n [|x [|y l]]] eqn:Hs.
  3: destruct (open_error (os s) _) eqn:Ho.
  all: destruct Hcase as (-> & Hrest).
  - destruct Hrest as (_ & ->). split; [|split; [|exact Hex]].
    + rewrite List.filter_app. reflexivity.
    + split; [discriminate|]. intros (name & ext & [=] & _).
  - destruct Hrest as (_ & ->). split; [|split; [|exact Hex]].
    + rewrite List.filter_app. reflexivity.
    + split; [discriminate|]. intros (name & ext & [=] & _).
  - destruct Hrest as (_ & ->). split; [|split; [|exact Hex]].
    + rewrite List.filter_app. reflexivity.
    + split; [discriminate|]. intros (name & ext & [= <- <-] & Ho').
      congruence.
  - destruct Hrest as (_ & _ & ->). split; [|split; [|exact Hex]].
    + rewrite List.filter_app. reflexivity.
    + split; [|reflexivity]. intros _. exists n, x. auto.
  - destruct Hrest as (_ & ->). split; [|split; [|exact Hex]].
    + rewrite List.filter_app. reflexivity.
    + split; [discriminate|]. intros (name & ext & [=] & _).
Qed.

(** ** The registry is never consulted by construction and start *)

Lemma new_Process_any_container (g : dict ref -> dict ref)
  (filename id : string) (wd : option string) (s : State) :
  new_Process filename id wd (with_container g s)
  = (fst (new_Process filename id wd s),
     with_container g (snd (new_Process filename id wd s))).
Proof.
  unfold new_Process, __init__, __validateFileName, __validateWorkingDirectory,
    __configureStdFile, open_w, unpack2.
  unfold_monad. mrun.
  destruct (fs_exists (os s) filename); mrun; [|reflexivity].
  destruct wd as [d|]; mrun.
  1: destruct (fs_exists (os s) d); mrun; [|reflexivity].
  all: destruct (split dot (basename (normpath filename))) as [|n [|x [|]]];
    mrun; try reflexivity.
  all: destruct (open_error (os s) _); mrun; reflexivity.
Qed.

Lemma start_any_container (g : dict ref -> dict ref) (r : ref) (s : State) :
  start r (with_container g s)
  = (fst (start r s), with_container g (snd (start r s))).
Proof.
  unfold start, Popen, getProcessHandler, str_handler.
  unfold_monad. mrun.
  destruct (spawn_oracle _ _ _ _); mrun; reflexivity.
Qed.

Lemma startProcessFromFileName_any_container (g : dict ref -> dict ref)
  (filename id : string) (wd : option string) (s : State) :
  fst (startProcessFromFileName filename id wd (with_container g s))
  = fst (startProcessFromFileName filename id wd s).
Proof.
  rewrite !startProcessFromFileName_eq, new_Process_any_container.
  destruct (new_Process filename id wd s) as [[r|e] s1]; cbn [fst snd];
    [|reflexivity].
  rewrite start_any_container.
  destruct (start r s1) as [[[e|]|e] s2]; reflexivity.
Qed.

(** C4. When the id is registered, [stopProcess] takes its entry out of
    the registry and calls [stop()] on the process taken out; when it is
    not, [stopProcess] returns a message naming the id and the state is
    unchanged. *)
Theorem stopProcess_spec (id : string) (s : State) :
  NoDup (dict_keys (processContainer s)) ->
  match dict_get id (processContainer s) with
  | Some r =>
      let s0 := with_container (fun _ => dict_remove id (processContainer s)) s in
      let s' := snd (stopProcess id s) in
      s' = snd (stop r s0) /\
      fst (stopProcess id s)
      = match fst (stop r s0) with
        | Ok _ => Ok None
        | Raise e => Raise e
        end /\
      processContainer s' = dict_remove id (processContainer s) /\
      dict_get id (processContainer s') = None /\
      (forall k, k <> id ->
         dict_get k (processContainer s') = dict_get k (processContainer s)) /\
      S (length (processContainer s')) = length (processContainer s) /\
      (forall h, _processHandler (heap s r) = Value (Some h) ->
         fst (stopProcess id s) = Ok None /\
         trace s' = trace s ++ stop_events (_name (heap s r)) h (procs (os s) h) /\
         _processHandler (heap s' r) = Deleted)
  | None =>
      let msg := "No process ID with name: " +:+ quoted id in
      stopProcess id s = (Ok (Some msg), s) /\
      stop_simulation_process id s = (Raise (Exn AssertionError msg), s)
  end.
Proof.
  intros Hk. pose proof (stopProcess_eq id s) as Heq.
  destruct (dict_get id (processContainer s)) as [r|] eqn:Hg.
  - cbn zeta. set (s0 := with_container _ s) in *.
    pose proof (stop_container r s0) as Hc.
    assert (Hs' : snd (stopProcess id s) = snd (stop r s0)).
    { rewrite Heq. now destruct (stop r s0) as [[[]|e] s1]. }
    assert (Hres : fst (stopProcess id s)
                   = match fst (stop r s0) with
                     | Ok _ => Ok None
                     | Raise e => Raise e
                     end).
    { rewrite Heq. now destruct (stop r s0) as [[[]|e] s1]. }
    rewrite Hs', Hc. cbn [processContainer with_container s0].
    split; [reflexivity|]. split; [exact Hres|]. split; [reflexivity|].
    split; [now apply dict_get_remove_same|].
    split; [intros k Hne; now apply dict_get_remove_other|].
    split; [apply dict_remove_length; rewrite Hg; eauto|].
    intros h Hh. rewrite Hres.
    destruct (stop_spec r h s0 Hh) as (s1 & -> & Htr & Hself & _).
    cbn [fst snd]. split; [reflexivity|]. split; [exact Htr|].
    now rewrite Hself.
  - cbn zeta. split; [exact Heq|].
    unfold stop_simulation_process. unfold bind at 1. now rewrite Heq.
Qed.

(** C5. On a non-empty registry [stopAllProcesses] calls [stop()] on every
    registered process, in the order of the registry, and then empties the
    registry; on an empty registry it returns a message and the state is
    unchanged. *)
Theorem stopAllProcesses_spec (s : State) :
  registry_inv s ->
  match processContainer s with
  | [] =>
      let msg :=
        "There is no simulation process currently running to be stopped" in
      stopAllProcesses s = (Ok (Some msg), s) /\
      stop_all_simulation_processes s = (Raise (Exn AssertionError msg), s)
  | _ :: _ =>
      let s' := snd (stopAllProcesses s) in
      fst (stopAllProcesses s) = Ok None /\
      processContainer s' = [] /\
      trace s' = trace s ++
        concat (stop_events_of s <$> dict_values (processContainer s)) /\
      (forall r, r ∈ dict_values (processContainer s) ->
         exists h,
           _processHandler (heap s r) = Value (Some h) /\
           stop_events_of s r
           = stop_events (_name (heap s r)) h (procs (os s) h) /\
           _processHandler (heap s' r) = Deleted)
  end.
Proof.
  intros Hinv. pose proof (stopAllProcesses_eq s) as Heq.
  destruct (processContainer s) as [|kv c] eqn:Hc.
  - cbn zeta. split; [exact Heq|].
    unfold stop_all_simulation_processes. unfold bind at 1. now rewrite Heq.
  - destruct (for_each_stop (dict_values (processContainer s)) s)
      as (s1 & Hrun & Htr & Hdel & _).
    + now apply registry_inv_handles.
    + now destruct Hinv as (_ & Hnd & _).
    + rewrite Hc in Hrun, Htr, Hdel. rewrite Hrun in Heq. rewrite Heq.
      cbn [fst snd processContainer with_container trace].
      repeat split; auto.
      intros r Hr. destruct Hinv as (_ & _ & Hall). rewrite Hc in Hall.
      destruct (proj1 (Forall_forall _ _) Hall r Hr) as (_ & h & Hh & _).
      exists h. split; [now apply handle_of_Some|].
      split; [unfold stop_events_of; now rewrite Hh|].
      cbn [heap with_container]. auto.
Qed.

Lemma keys_NoDup_run (ops : list op) : forall s,
  NoDup (dict_keys (processContainer s)) ->
  NoDup (dict_keys (processContainer (run ops s))).
Proof.
  induction ops as [|o ops IH]; intros s Hk; [exact Hk|].
  cbn. apply IH. now apply keys_NoDup_step.
Qed.

(** C6. Whatever registry operations are run from the empty registry,
    no id is registered twice; a successful [startProcessFromFileName]
    whose id is already registered puts the new process in the place of
    the old one, and succeeds whatever the registry holds. *)
Theorem registry_keys_unique :
  (forall ops s,
     processContainer s = [] ->
     NoDup (dict_keys (processContainer (run ops s)))) /\
  (forall filename id wd s r s',
     startProcessFromFileName filename id wd s = (Ok (Some r, None), s') ->
     processContainer s' = dict_set id r (processContainer s) /\
     dict_get id (processContainer s') = Some r /\
     (forall k, k <> id ->
        dict_get k (processContainer s') = dict_get k (processContainer s)) /\
     (forall old, dict_get id (processContainer s) = Some old ->
        dict_keys (processContainer s') = dict_keys (processContainer s) /\
        length (processContainer s') = length (processContainer s) /\
        (registry_inv s -> r <> old /\ heap s' old = heap s old)) /\
     (forall c,
        fst (startProcessFromFileName filename id wd
               (with_container (fun _ => c) s))
        = Ok (Some r, None))).
Proof.
  split.
  { intros ops s Hc. apply keys_NoDup_run.
    unfold dict_keys. rewrite Hc. constructor. }
  intros filename id wd s r s' Hstart.
  pose proof (startProcessFromFileName_container filename id wd s) as Hcont.
  cbn zeta in Hcont. rewrite Hstart in Hcont. cbn [fst snd] in Hcont.
  split; [exact Hcont|]. rewrite Hcont.
  split; [apply dict_get_set_same|].
  split; [intros k Hne; now apply dict_get_set_other|].
  split.
  - intros old Hold.
    assert (Hmem : dict_mem id (processContainer s) = true)
      by (apply dict_mem_get; rewrite Hold; eauto).
    rewrite dict_keys_set, dict_set_length, Hmem.
    split; [reflexivity|]. split; [reflexivity|].
    intros Hinv.
    destruct (registry_inv_lookup s id old Hinv Hold) as (Hlt & _).
    rewrite startProcessFromFileName_eq in Hstart.
    destruct (new_Process filename id wd s) as [[r1|e] s1] eqn:Hnew;
      [|discriminate].
    destruct (new_Process_cases _ _ _ _ _ _ Hnew) as [(_ & Hheap & _) _].
    pose proof (proj1 (new_Process_ok_inv _ _ _ _ _ _ Hnew)) as Hr1.
    destruct (start_spec r1 s1) as (s2 & Hcase & Hframe & _).
    destruct (spawn_oracle _ _ _ _); destruct Hcase as (Hst & _);
      rewrite Hst in Hstart; [discriminate|].
    injection Hstart as <- <-.
    assert (Hne : old <> r1) by lia.
    split; [auto|]. cbn [heap with_container].
    rewrite Hframe by assumption. apply Hheap. lia.
  - intros c. rewrite startProcessFromFileName_any_container.
    now rewrite Hstart.
Qed.

(** * Further properties of the process manager *)

(** The keywords in terms of the registry operations. *)
Lemma start_simulation_process_eq (filename processID : string)
  (wd : option string) (s : State) :
  start_simulation_process filename processID wd s
  = match startProcessFromFileName filename processID wd s with
    | (Ok (_, Some err), s') => (Raise (Exn AssertionError (exn_str err)), s')
    | (Ok (Some p, None), s') => (Ok (_id (heap s' p)), s')
    | (Ok (None, None), s') => (Raise (no_attribute "NoneType" "getId"), s')
    | (Raise e, s') => (Raise e, s')
    end.
Proof.
  unfold start_simulation_process. unfold_monad.
  now destruct (startProcessFromFileName filename processID wd s)
    as [[[[p|] [e|]]|e] s'].
Qed.

Lemma stop_simulation_process_eq (processID : string) (s : State) :
  stop_simulation_process processID s
  = match stopProcess processID s with
    | (Ok (Some msg), s') => (Raise (Exn AssertionError msg), s')
    | (Ok None, s') => (Ok tt, s')
    | (Raise e, s') => (Raise e, s')
    end.
Proof.
  unfold stop_simulation_process. unfold_monad.
  now destruct (stopProcess processID s) as [[[msg|]|e] s'].
Qed.

Lemma stop_all_simulation_processes_eq (s : State) :
  stop_all_simulation_processes s
  = match stopAllProcesses s with
    | (Ok (Some msg), s') => (Raise (Exn AssertionError msg), s')
    | (Ok None, s') => (Ok tt, s')
    | (Raise e, s') => (Raise e, s')
    end.
Proof.
  unfold stop_all_simulation_processes. unfold_monad.
  now destruct (stopAllProcesses s) as [[[msg|]|e] s'].
Qed.

(** X1. [start_simulation_process] returns the id it was given when the
    process is constructed and started, and otherwise raises an
    [AssertionError] carrying the message of the underlying failure;
    [startProcessFromFileName] itself never raises. *)
Theorem start_simulation_process_outcome (filename processID : string)
  (wd : option string) (s : State) :
  let out := startProcessFromFileName filename processID wd s in
  snd (start_simulation_process filename processID wd s) = snd out /\
  match fst out with
  | Ok (Some r, None) =>
      fst (start_simulation_process filename processID wd s) = Ok processID /\
      dict_get processID (processContainer (snd out)) = Some r
  | Ok (_, Some err) =>
      fst (start_simulation_process filename processID wd s)
      = Raise (Exn AssertionError (exn_str err)) /\
      processContainer (snd out) = processContainer s
  | Ok (None, None) | Raise _ => False
  end.
Proof.
  cbn zeta. rewrite start_simulation_process_eq.
  pose proof (startProcessFromFileName_container filename processID wd s) as Hc.
  cbn zeta in Hc. revert Hc. rewrite startProcessFromFileName_eq.
  destruct (new_Process filename processID wd s) as [[r|e] s1] eqn:Hnew;
    cbn [fst snd]; [|auto].
  destruct (new_Process_ok_inv _ _ _ _ _ _ Hnew)
    as (_ & _ & _ & n & x & _ & _ & Hheap & _).
  destruct (start_spec r s1) as (s2 & Hcase & _).
  destruct (spawn_oracle _ _ _ _); destruct Hcase as (-> & Hh & _);
    cbn [fst snd]; intros Hc; [auto|].
  split; [reflexivity|]. cbn [heap with_container processContainer].
  rewrite Hh, Hheap. cbn. split; [reflexivity|].
  apply dict_get_set_same.
Qed.

(** X2. A successful [startProcessFromFileName] leaves a running child
    process made from the normalised executable path, run in the
    effective working directory, whose output and error streams are the
    log file of the process; the process is registered under its id. *)
Theorem started_process_runs (filename id : string) (wd : option string)
  (s : State) (r : ref) (s' : State) :
  startProcessFromFileName filename id wd s = (Ok (Some r, None), s') ->
  exists h name ext f,
    _processHandler (heap s' r) = Value (Some h) /\
    h = nprocs (os s) /\ nprocs (os s') = S h /\
    proc_args (procs (os s') h) = normpath filename /\
    proc_cwd (procs (os s') h) = Some (effective_wd wd s) /\
    proc_status_of (procs (os s') h) = Running /\
    proc_stdout (procs (os s') h) = Some f /\
    proc_stderr (procs (os s') h) = Some f /\
    split dot (basename (normpath filename)) = [name; ext] /\
    files (os s') !! f = Some (std_filename (effective_wd wd s) name) /\
    dict_get id (processContainer s') = Some r /\
    _id (heap s' r) = id /\
    _name (heap s' r) = Some (basename (normpath filename)).
Proof.
  rewrite startProcessFromFileName_eq.
  destruct (new_Process filename id wd s) as [[r1|e] s1] eqn:Hnew;
    [|discriminate].
  destruct (new_Process_ok_inv _ _ _ _ _ _ Hnew)
    as (_ & _ & _ & n & x & Hsplit & _ & Hheap & Hos & _).
  destruct (new_Process_cases _ _ _ _ _ _ Hnew) as [(_ & _ & _ & _ & Hnp & _) _].
  destruct (start_spec r1 s1) as (s2 & Hcase & _ & _ & _ & Hfiles).
  destruct (spawn_oracle _ _ _ _); destruct Hcase as (-> & Hh & Hrest);
    [discriminate|].
  destruct Hrest as (_ & Hnp2 & Hp & _). intros [= <- <-].
  rewrite Hnp in Hh, Hp, Hnp2.
  exists (nprocs (os s)), n, x, (length (files (os s))).
  cbn [heap os processContainer with_container].
  rewrite Hh, Hp, Hfiles, Hheap, Hos. cbn.
  repeat split; auto.
  - now apply list_lookup_middle.
  - apply dict_get_set_same.
Qed.

(** X3. When construction fails, [startProcessFromFileName] returns the
    error without a process, nothing is spawned, and neither the operating
    system nor the registry changes. *)
Theorem construction_failure_spawns_nothing (filename id : string)
  (wd : option string) (s : State) (e : exn) (s1 : State) :
  new_Process filename id wd s = (Raise e, s1) ->
  startProcessFromFileName filename id wd s = (Ok (None, Some e), s1) /\
  start_simulation_process filename id wd s
  = (Raise (Exn AssertionError (exn_str e)), s1) /\
  os s1 = os s /\
  processContainer s1 = processContainer s /\
  List.filter is_popen (trace s1) = List.filter is_popen (trace s).
Proof.
  intros Hnew.
  assert (Heq : startProcessFromFileName filename id wd s
                = (Ok (None, Some e), s1))
    by now rewrite startProcessFromFileName_eq, Hnew.
  split; [exact Heq|]. split.
  { unfold start_simulation_process. unfold bind at 1. now rewrite Heq. }
  pose proof (new_Process_cases _ _ _ _ _ _ Hnew) as [(_ & _ & Hc & _) Hcase].
  cbn zeta in Hcase.
  assert (Hw : List.filter is_popen (default_warnings filename wd s) = [])
    by now destruct wd.
  destruct (fs_exists (os s) filename).
  2: { destruct Hcase as (_ & Hos & ->). auto. }
  destruct (wd_missing wd s).
  { destruct Hcase as (_ & Hos & ->). auto. }
  destruct Hcase as [_ Hcase].
  destruct (split dot (basename (normpath filename))) as [|n [|x [|]]];
    try (destruct Hcase as (_ & Hos & ->);
         rewrite List.filter_app, Hw, app_nil_r; now auto).
  destruct (open_error (os s) _); [|now destruct Hcase].
  destruct Hcase as (_ & Hos & ->).
  rewrite !List.filter_app, Hw. cbn. rewrite !app_nil_r. auto.
Qed.


(** X5. [stop()] needs a handle: before a successful [start()] it raises
    [AttributeError] on [None], after a [stop()] that went through it
    raises [AttributeError] on the deleted attribute; in both cases no
    signal is sent and nothing changes. *)
Theorem stop_needs_handle (self : ref) (s : State) :
  (_processHandler (heap s self) = Value None ->
   stop self s = (Raise (no_attribute "NoneType" "terminate"), s)) /\
  (_processHandler (heap s self) = Deleted ->
   stop self s = (Raise (no_attribute "Process" "_processHandler"), s)) /\
  (forall h, _processHandler (heap s self) = Value (Some h) ->
   let s1 := snd (stop self s) in
   fst (stop self s) = Ok tt /\
   stop self s1 = (Raise (no_attribute "Process" "_processHandler"), s1)).
Proof.
  assert (Hdel : forall s0, _processHandler (heap s0 self) = Deleted ->
            stop self s0 = (Raise (no_attribute "Process" "_processHandler"), s0)).
  { intros s0 H. unfold stop, processHandler_method, getProcessHandler.
    unfold_monad. now rewrite H. }
  split; [|split; [apply Hdel|]].
  - intros H. unfold stop, processHandler_method, getProcessHandler.
    unfold_monad. now rewrite H.
  - intros h Hh. destruct (stop_spec self h s Hh) as (s1 & -> & _ & Hself & _).
    cbn [fst snd]. split; [reflexivity|]. apply Hdel. now rewrite Hself.
Qed.

(** X6. [start()] never raises.  Called on a process that already holds
    a running child, it forgets that child: whether the new spawn succeeds
    or fails the handle no longer refers to it, and the child is neither
    signalled nor changed. *)
Theorem start_forgets_running_child (self : ref) (h : handle) (s : State) :
  _processHandler (heap s self) = Value (Some h) ->
  (h < nprocs (os s))%nat ->
  let s' := snd (start self s) in
  ((fst (start self s) = Ok None /\
    _processHandler (heap s' self) = Value (Some (nprocs (os s)))) \/
   (exists e, fst (start self s) = Ok (Some e) /\
              _processHandler (heap s' self) = Value None)) /\
  handle_of s' self <> Some h /\
  procs (os s') h = procs (os s) h /\
  List.filter is_signal (trace s') = List.filter is_signal (trace s).
Proof.
  intros Hh Hlt. cbn zeta.
  destruct (start_spec self s) as (s' & Hcase & _).
  destruct (spawn_oracle _ _ _ _) as [e|grace].
  - destruct Hcase as (-> & Hself & Htr & _ & Hprocs). cbn [fst snd].
    unfold handle_of. rewrite Hself, Htr, Hprocs. cbn.
    split; [right; eauto|]. split; [discriminate|]. split; [reflexivity|].
    rewrite List.filter_app. cbn. now rewrite app_nil_r.
  - destruct Hcase as (-> & Hself & Htr & _ & _ & Hother). cbn [fst snd].
    unfold handle_of. rewrite Hself, Htr. cbn.
    split; [left; auto|]. split; [intros [=]; lia|].
    split; [apply Hother; lia|].
    rewrite List.filter_app. cbn. now rewrite app_nil_r.
Qed.

Lemma dict_remove_set {V : Type} (k : string) (v : V) (d : dict V) :
  dict_remove k (dict_set k v d) = dict_remove k d.
Proof.
  induction d as [|[k' v'] d IH]; cbn.
  - now rewrite String.eqb_refl.
  - destruct (String.eqb k' k) eqn:E; cbn; rewrite E; [reflexivity|].
    now rewrite IH.
Qed.

Lemma dict_remove_absent {V : Type} (k : string) (d : dict V) :
  dict_get k d = None -> dict_remove k d = d.
Proof.
  induction d as [|[k' v'] d IH]; cbn; [reflexivity|].
  destruct (String.eqb k' k); [discriminate|]. intros H. now rewrite IH.
Qed.

(** What a successful [start_simulation_process] tells. *)
Lemma start_simulation_process_ok_inv (filename id : string)
  (wd : option string) (s : State) (v : string) (s1 : State) :
  start_simulation_process filename id wd s = (Ok v, s1) ->
  exists r h,
    startProcessFromFileName filename id wd s = (Ok (Some r, None), s1) /\
    r = heap_next s /\
    processContainer s1 = dict_set id r (processContainer s) /\
    _processHandler (heap s1 r) = Value (Some h) /\
    h = nprocs (os s) /\ nprocs (os s1) = S h /\
    (forall r', r' <> r -> heap s1 r' = heap s r') /\
    (forall h', h' <> h -> procs (os s1) h' = procs (os s) h').
Proof.
  rewrite start_simulation_process_eq.
  pose proof (startProcessFromFileName_container filename id wd s) as Hc.
  cbn zeta in Hc. revert Hc. rewrite startProcessFromFileName_eq.
  destruct (new_Process filename id wd s) as [[r|e] s1'] eqn:Hnew;
    [|discriminate].
  pose proof (proj1 (new_Process_ok_inv _ _ _ _ _ _ Hnew)) as Hr.
  destruct (new_Process_cases _ _ _ _ _ _ Hnew)
    as [(_ & Hheap & _ & Hprocs & Hnp & _) _].
  destruct (start_spec r s1') as (s2 & Hcase & Hframe & _).
  destruct (spawn_oracle _ _ _ _); destruct Hcase as (-> & Hh & Hrest);
    cbn [fst snd]; [discriminate|].
  destruct Hrest as (_ & Hnp2 & _ & Hother).
  intros Hc [= _ <-]. exists r, (nprocs (os s)).
  cbn [heap os with_container] in *. rewrite Hnp in *.
  repeat split; auto.
  - now rewrite Hh.
  - intros r' Hr'. rewrite Hframe by assumption. apply Hheap. congruence.
  - intros h' Hh'. rewrite Hother by assumption. now rewrite Hprocs.
Qed.

(** X7. Starting a process under an id that is not registered and then
    stopping that id gives the registry back as it was: the keyword
    returns, and the one process that was started is the one stopped. *)
Theorem start_then_stop_restores_registry (filename id : string)
  (wd : option string) (s : State) (v : string) (s1 : State) :
  dict_get id (processContainer s) = None ->
  start_simulation_process filename id wd s = (Ok v, s1) ->
  let s2 := snd (stop_simulation_process id s1) in
  let r := heap_next s in
  let h := nprocs (os s) in
  fst (stop_simulation_process id s1) = Ok tt /\
  processContainer s2 = processContainer s /\
  _processHandler (heap s1 r) = Value (Some h) /\
  _processHandler (heap s2 r) = Deleted /\
  trace s2 = trace s1 ++ stop_events (_name (heap s1 r)) h (procs (os s1) h).
Proof.
  intros Hfresh Hstart. cbn zeta.
  destruct (start_simulation_process_ok_inv _ _ _ _ _ _ Hstart)
    as (r & h & _ & -> & Hc & Hh & -> & _).
  rewrite stop_simulation_process_eq, stopProcess_eq, Hc, dict_get_set_same.
  rewrite dict_remove_set, (dict_remove_absent _ _ Hfresh).
  set (s0 := with_container _ s1).
  destruct (stop_spec (heap_next s) (nprocs (os s)) s0 Hh)
    as (s2 & -> & Htr & Hself & _ & _ & Hc2 & _).
  cbn [fst snd]. repeat split; auto. now rewrite Hself.
Qed.

(** X8. Starting a second process under an id that is already registered
    loses the first one: its child is still running and it still holds
    its handle, but stopping the id stops only the new process, after
    which the id is unknown and the first process is out of reach of the
    registry. *)
Theorem duplicate_id_orphans_first (filename id : string)
  (wd : option string) (s : State) (old : ref) (h_old : handle)
  (v : string) (s1 : State) :
  registry_inv s ->
  dict_get id (processContainer s) = Some old ->
  handle_of s old = Some h_old ->
  start_simulation_process filename id wd s = (Ok v, s1) ->
  let s2 := snd (stopProcess id s1) in
  fst (stopProcess id s1) = Ok None /\
  dict_get id (processContainer s2) = None /\
  (old ∉ dict_values (processContainer s2)) /\
  handle_of s2 old = Some h_old /\
  procs (os s2) h_old = procs (os s) h_old /\
  List.filter is_signal (trace s2)
  = List.filter is_signal (trace s) ++
    List.filter is_signal
      (stop_events (_name (heap s1 (heap_next s))) (nprocs (os s))
         (procs (os s1) (nprocs (os s)))).
Proof.
  intros Hinv Hold Hho Hstart. cbn zeta.
  destruct (registry_inv_lookup s id old Hinv Hold) as (Hlt & h' & Hh' & Hhlt).
  assert (h' = h_old) by (apply handle_of_Some in Hh'; congruence). subst h'.
  destruct (start_simulation_process_ok_inv _ _ _ _ _ _ Hstart)
    as (r & h & Hsp & -> & Hc & Hh & -> & _ & Hframe & Hother).
  assert (Htr1 : List.filter is_signal (trace s1)
                 = List.filter is_signal (trace s)).
  { rewrite startProcessFromFileName_eq in Hsp.
    destruct (new_Process filename id wd s) as [[r|e] s1'] eqn:Hnew;
      [|discriminate].
    destruct (new_Process_ok_inv _ _ _ _ _ _ Hnew)
      as (_ & _ & _ & n & x & _ & _ & _ & _ & Htr).
    destruct (start_spec r s1') as (s2 & Hcase & _).
    destruct (spawn_oracle _ _ _ _); destruct Hcase as (Hst & _ & Htr2 & _);
      rewrite Hst in Hsp; [discriminate|].
    injection Hsp as _ <-. cbn [trace with_container].
    rewrite Htr2, Htr, !List.filter_app. cbn.
    destruct wd; cbn; now rewrite !app_nil_r. }
  rewrite stopProcess_eq, Hc, dict_get_set_same, dict_remove_set.
  set (s0 := with_container _ s1).
  destruct (stop_spec (heap_next s) (nprocs (os s)) s0 Hh)
    as (s2 & -> & Htr & _ & Hframe2 & _ & Hc2 & _ & Hother2).
  cbn [fst snd]. rewrite Hc2. cbn [processContainer with_container s0].
  destruct Hinv as (Hk & Hnd & _).
  split; [reflexivity|]. split; [now apply dict_get_remove_same|].
  split; [apply dict_remove_not_in; [now apply NoDup_fmap_1 in Hnd|assumption]|].
  assert (Hne : old <> heap_next s) by lia.
  split.
  { unfold handle_of in *. rewrite Hframe2 by assumption.
    cbn [heap with_container s0]. now rewrite Hframe. }
  split.
  { rewrite Hother2 by lia. cbn [os with_container s0]. apply Hother. lia. }
  rewrite Htr, List.filter_app. cbn [trace with_container s0].
  now rewrite Htr1.
Qed.

(** X9. An id can be stopped once: after [stopProcess] on a registered
    id, whatever that call returned, a second call reports the id as
    unknown and changes nothing. *)
Theorem stop_twice_unknown_id (id : string) (s : State) :
  NoDup (dict_keys (processContainer s)) ->
  is_Some (dict_get id (processContainer s)) ->
  let s1 := snd (stopProcess id s) in
  let msg := "No process ID with name: " +:+ quoted id in
  stopProcess id s1 = (Ok (Some msg), s1) /\
  stop_simulation_process id s1 = (Raise (Exn AssertionError msg), s1).
Proof.
  intros Hk [r Hr]. cbn zeta.
  assert (Hgone : dict_get id (processContainer (snd (stopProcess id s))) = None).
  { rewrite stopProcess_eq, Hr.
    pose proof (stop_container r
      (with_container (fun _ => dict_remove id (processContainer s)) s)) as Hc.
    destruct (stop r _) as [[[]|e] s']; cbn [snd] in *; rewrite Hc; cbn;
      now apply dict_get_remove_same. }
  assert (Heq : stopProcess id (snd (stopProcess id s))
                = (Ok (Some ("No process ID with name: " +:+ quoted id)),
                   snd (stopProcess id s)))
    by now rewrite (stopProcess_eq id (snd (stopProcess id s))), Hgone.
  split; [exact Heq|]. now rewrite stop_simulation_process_eq, Heq.
Qed.

(** X10. After [stop_all_simulation_processes] has gone through, nothing
    is registered: a second call finds nothing to stop and every id is
    unknown. *)
Theorem after_stop_all_nothing_registered (s : State) :
  registry_inv s ->
  processContainer s <> [] ->
  let s1 := snd (stop_all_simulation_processes s) in
  fst (stop_all_simulation_processes s) = Ok tt /\
  stopAllProcesses s1
  = (Ok (Some "There is no simulation process currently running to be stopped"),
     s1) /\
  (forall id,
     stopProcess id s1
     = (Ok (Some ("No process ID with name: " +:+ quoted id)), s1)) /\
  registry_inv s1.
Proof.
  intros Hinv Hne. cbn zeta.
  rewrite stop_all_simulation_processes_eq, stopAllProcesses_eq.
  destruct (processContainer s) as [|kv c] eqn:Hc; [contradiction|].
  destruct (for_each_stop (dict_values (processContainer s)) s)
    as (s1 & Hrun & _).
  { now apply registry_inv_handles. }
  { now destruct Hinv as (_ & Hnd & _). }
  rewrite Hc in Hrun. rewrite Hrun. cbn [fst snd].
  split; [reflexivity|]. split; [now rewrite stopAllProcesses_eq|].
  split; [intros id; now rewrite stopProcess_eq|].
  now apply registry_inv_empty.
Qed.

Lemma stop_raise_inv (r : ref) (s : State) (e : exn) (s' : State) :
  stop r s = (Raise e, s') ->
  exn_class e = AttributeError /\ s' = s /\ handle_of s r = None.
Proof.
  intros Hstop. destruct (handle_of s r) as [h|] eqn:Hh.
  - apply handle_of_Some in Hh.
    destruct (stop_spec r h s Hh) as (s1 & Heq & _). congruence.
  - destruct (stop_without_handler r s Hh) as (e' & Heq & Hcl).
    rewrite Heq in Hstop. injection Hstop as <- <-. auto.
Qed.

Lemma for_each_stop_raise_inv (rs : list ref) : forall s e s',
  for_each rs stop s = (Raise e, s') ->
  exn_class e = AttributeError /\
  exists r, r ∈ rs /\ handle_of s' r = None.
Proof.
  induction rs as [|r rs IH]; intros s e s'; [discriminate|].
  cbn [for_each]. unfold bind at 1.
  destruct (stop r s) as [[[]|e1] s1] eqn:Hstop.
  - intros H. destruct (IH _ _ _ H) as (Hcl & r' & Hin & Hno).
    split; [exact Hcl|]. exists r'. split; [|exact Hno].
    apply elem_of_cons. now right.
  - intros [= <- <-]. destruct (stop_raise_inv _ _ _ _ Hstop) as (Hcl & -> & Hno).
    split; [exact Hcl|]. exists r. split; [|exact Hno].
    apply elem_of_cons. now left.
Qed.

(** X11. When [stopAllProcesses] raises, it is with the [AttributeError]
    of a registered process that holds no handle, and the registry is not
    cleared: it keeps every entry, also those already stopped. *)
Theorem stop_all_failure_keeps_registry (s : State) (e : exn) :
  fst (stopAllProcesses s) = Raise e ->
  let s' := snd (stopAllProcesses s) in
  exn_class e = AttributeError /\
  processContainer s' = processContainer s /\
  (exists r, r ∈ dict_values (processContainer s) /\ handle_of s' r = None) /\
  stop_all_simulation_processes s = (Raise e, s').
Proof.
  cbn zeta. rewrite stop_all_simulation_processes_eq, stopAllProcesses_eq.
  destruct (processContainer s) as [|kv c] eqn:Hc; [discriminate|].
  pose proof (for_each_stop_container (dict_values (kv :: c)) s) as Hcont.
  destruct (for_each (dict_values (kv :: c)) stop s) as [[[]|e1] s1] eqn:Hrun;
    cbn [fst snd] in *; [discriminate|].
  intros [= ->].
  destruct (for_each_stop_raise_inv _ _ _ _ Hrun) as (Hcl & r & Hin & Hno).
  split; [exact Hcl|]. split; [congruence|]. split; [eauto|reflexivity].
Qed.

Lemma dict_distinct_values {X : Type} (f : ref -> X) (d : dict ref)
  (k k' : string) (v v' : ref) :
  NoDup (f <$> dict_values d) ->
  dict_get k d = Some v -> dict_get k' d = Some v' -> k <> k' ->
  f v <> f v'.
Proof.
  unfold dict_values. induction d as [|[k0 v0] d IH]; cbn; [discriminate|].
  intros Hnd. apply NoDup_cons in Hnd as [Hfresh Hnd].
  destruct (String.eqb_spec k0 k) as [E|Hk], (String.eqb_spec k0 k') as [E'|Hk'].
  - congruence.
  - intros [= ->] Hg' _ Heq. apply Hfresh. rewrite Heq.
    apply list_elem_of_fmap_2. exact (dict_get_values _ _ _ Hg').
  - intros Hg [= ->] _ Heq. apply Hfresh. rewrite <- Heq.
    apply list_elem_of_fmap_2. exact (dict_get_values _ _ _ Hg).
  - auto.
Qed.

(** X12. Whatever registry operations are run from the empty registry,
    every registered id stands for a process object that holds the handle
    of a child process it spawned, and two ids never share an object or a
    child process. *)
Theorem registered_processes_hold_handles (ops : list op) (s0 : State) :
  processContainer s0 = [] ->
  let s := run ops s0 in
  forall id r, dict_get id (processContainer s) = Some r ->
    (r < heap_next s)%nat /\
    (exists h, _processHandler (heap s r) = Value (Some h) /\
               (h < nprocs (os s))%nat) /\
    forall id' r', dict_get id' (processContainer s) = Some r' -> id <> id' ->
      r <> r' /\ handle_of s r <> handle_of s r'.
Proof.
  intros Hempty s id r Hg.
  assert (Hinv : registry_inv s)
    by now apply registry_inv_run, registry_inv_empty.
  destruct (registry_inv_lookup s id r Hinv Hg) as (Hlt & Hh).
  split; [exact Hlt|]. split; [exact Hh|].
  intros id' r' Hg' Hne. destruct Hinv as (_ & Hnd & _).
  pose proof (dict_distinct_values (handle_of s) _ _ _ _ _ Hnd Hg Hg' Hne) as Hd.
  split; [|exact Hd]. intros ->. now apply Hd.
Qed.

(** X13. The log file is named after the base name and the working
    directory only: two processes constructed one after the other with
    the same base name and the same effective working directory get two
    file objects on one path, the second [open] truncating the log of
    the first. *)
Theorem same_base_name_same_log (f1 f2 id1 id2 : string)
  (wd1 wd2 : option string) (s : State) (r1 : ref) (s1 : State) (r2 : ref)
  (s2 : State) :
  new_Process f1 id1 wd1 s = (Ok r1, s1) ->
  new_Process f2 id2 wd2 s1 = (Ok r2, s2) ->
  basename (normpath f1) = basename (normpath f2) ->
  effective_wd wd1 s = effective_wd wd2 s1 ->
  exists fa fb path,
    r1 <> r2 /\ fa <> fb /\
    _stdFile (heap s2 r1) = Some fa /\
    _stdFile (heap s2 r2) = Some fb /\
    files (os s2) !! fa = Some path /\
    files (os s2) !! fb = Some path /\
    List.filter is_open (trace s2)
    = List.filter is_open (trace s) ++ [EvOpen path "w"; EvOpen path "w"].
Proof.
  intros Hn1 Hn2 Hbase Hwd.
  destruct (new_Process_ok_inv _ _ _ _ _ _ Hn1)
    as (Hr1 & _ & _ & n1 & x1 & Hs1 & _ & Hh1 & Hos1 & Htr1).
  destruct (new_Process_ok_inv _ _ _ _ _ _ Hn2)
    as (Hr2 & _ & _ & n2 & x2 & Hs2 & _ & Hh2 & Hos2 & Htr2).
  destruct (new_Process_cases _ _ _ _ _ _ Hn1) as [(Hnext1 & _) _].
  destruct (new_Process_cases _ _ _ _ _ _ Hn2) as [(_ & Hframe2 & _) _].
  rewrite <- Hbase, Hs1 in Hs2. injection Hs2 as <- <-.
  rewrite <- Hwd in *. cbn zeta in *.
  set (path := std_filename (effective_wd wd1 s) n1) in *.
  assert (Hne : r1 <> r2) by lia.
  exists (length (files (os s))), (length (files (os s1))), path.
  rewrite (Hframe2 r1) by lia. rewrite Hh1, Hh2, Hos2.
  rewrite Htr2, Htr1, !List.filter_app, !default_warnings_no_open.
  rewrite Hos1. cbn. rewrite length_app. cbn.
  split; [exact Hne|]. split; [lia|]. split; [reflexivity|].
  split; [reflexivity|].
  split; [rewrite <- app_assoc; now apply list_lookup_middle|].
  split; [apply list_lookup_middle; now rewrite length_app|].
  now rewrite <- !app_assoc.
Qed.

End Verification.

(** * Properties of [utils.py] *)

Section Utils.

Lemma all_space_cons (c : ascii) (s : string) :
  all_space (String c s) = (is_space c && all_space s)%bool.
Proof. reflexivity. Qed.

Lemma lstrip_spaces_app (ws s : string) :
  all_space ws = true -> lstrip (ws +:+ s) = lstrip s.
Proof.
  induction ws as [|c ws IH]; [reflexivity|].
  rewrite all_space_cons. intros [Hc Hws]%andb_true_iff.
  simpl. rewrite Hc. auto.
Qed.

Lemma rstrip_spaces (ws : string) : all_space ws = true -> rstrip ws = EmptyString.
Proof.
  induction ws as [|c ws IH]; [reflexivity|].
  rewrite all_space_cons. intros [Hc Hws]%andb_true_iff.
  simpl. now rewrite IH, Hc.
Qed.

Lemma rstrip_app_spaces (s ws : string) :
  all_space ws = true -> rstrip (s +:+ ws) = rstrip s.
Proof.
  intros Hws. induction s as [|c s IH]; simpl.
  - now apply rstrip_spaces.
  - now rewrite IH.
Qed.

Lemma strip_app_spaces (s ws : string) :
  all_space ws = true -> strip (s +:+ ws) = strip s.
Proof.
  intros Hws. unfold strip. induction s as [|c s IH]; simpl.
  - change (EmptyString +:+ ws) with ws.
    assert (H : lstrip ws = EmptyString).
    { clear -Hws. induction ws as [|c ws IH]; [reflexivity|].
      rewrite all_space_cons in Hws. apply andb_true_iff in Hws as [Hc Hws].
      simpl. rewrite Hc. auto. }
    now rewrite H.
  - destruct (is_space c); [exact IH|].
    exact (rstrip_app_spaces (String c s) ws Hws).
Qed.

Lemma strip_padded (a s b : string) :
  all_space a = true -> all_space b = true ->
  strip (a +:+ s +:+ b) = strip s.
Proof.
  intros Ha Hb. unfold strip. rewrite (lstrip_spaces_app a _ Ha).
  exact (strip_app_spaces s b Hb).
Qed.

(** X14. Blanks around the string do not change what [str_to_bool]
    makes of it: the same boolean, or a refusal in both cases. *)
Theorem str_to_bool_ignores_blanks (a s b : string) :
  all_space a = true -> all_space b = true ->
  match str_to_bool (PyStr s), str_to_bool (PyStr (a +:+ s +:+ b)) with
  | Ok x, Ok y => x = y
  | Raise e, Raise e' =>
      exn_class e = AssertionError /\ exn_class e' = AssertionError
  | _, _ => False
  end.
Proof.
  intros Ha Hb. unfold str_to_bool. rewrite (strip_padded a s b Ha Hb).
  destruct (str_in (strip s) _); [reflexivity|].
  destruct (str_in (strip s) _); [reflexivity|]. split; reflexivity.
Qed.

(** X15. [str_to_bool] reads back what [str] prints for a boolean, with
    any blanks around it, and leaves a boolean as it is. *)
Theorem str_to_bool_of_str_bool (v : bool) (a b : string) :
  all_space a = true -> all_space b = true ->
  str_to_bool (PyStr (a +:+ str_bool v +:+ b)) = Ok v /\
  str_to_bool (PyBool v) = Ok v.
Proof.
  intros Ha Hb. split; [|reflexivity].
  unfold str_to_bool. rewrite (strip_padded a _ b Ha Hb).
  now destruct v.
Qed.

Lemma is_digit_digit (n : nat) : is_digit (digit n) = true.
Proof.
  unfold is_digit, digit.
  pose proof (Nat.mod_upper_bound n 10 ltac:(lia)) as Hlt.
  rewrite nat_ascii_embedding by lia.
  apply andb_true_iff. split; apply Nat.leb_le; lia.
Qed.

Lemma take_digits_app (g rest : string) :
  forallb is_digit (list_ascii_of_string g) = true ->
  take_digits (String.length g) (g +:+ rest) = Some (g, rest).
Proof.
  induction g as [|c g IH]; [reflexivity|].
  simpl. intros [Hc Hg]%andb_true_iff. now rewrite Hc, IH.
Qed.

Lemma list_ascii_of_string_app (s t : string) :
  list_ascii_of_string (s +:+ t)
  = list_ascii_of_string s ++ list_ascii_of_string t.
Proof. induction s as [|c s IH]; simpl; [reflexivity|]. now rewrite IH. Qed.

Lemma string_length_app (s t : string) :
  String.length (s +:+ t) = (String.length s + String.length t)%nat.
Proof. induction s as [|c s IH]; simpl; [reflexivity|]. now rewrite IH. Qed.

Lemma digits_spec (w : nat) : forall n,
  String.length (digits w n) = w /\
  forallb is_digit (list_ascii_of_string (digits w n)) = true.
Proof.
  induction w as [|w IH]; intros n; [split; reflexivity|].
  cbn [digits]. destruct (IH (n / 10)%nat) as [Hlen Hall].
  rewrite string_length_app, list_ascii_of_string_app, forallb_app, Hlen, Hall.
  cbn [String.length list_ascii_of_string forallb andb].
  rewrite is_digit_digit. split; [lia|reflexivity].
Qed.

Lemma take_digits_digits (w n : nat) (rest : string) :
  take_digits w (digits w n +:+ rest) = Some (digits w n, rest).
Proof.
  destruct (digits_spec w n) as [Hlen Hall].
  rewrite <- Hlen at 1. now apply take_digits_app.
Qed.

Lemma re_search_here (p : list re_item) (s : string) (gs : list string) :
  match_here p s = Some gs -> re_search p s = Some gs.
Proof. intros H. destruct s; simpl; now rewrite H. Qed.

(** The date pattern matches the printed form of every [datetime] at its
    first character. *)
Lemma date_template_matches (d : datetime) :
  re_search RE_DATE_TEMPLATE (str_datetime d)
  = Some [digits 4 (year d); digits 2 (month d); digits 2 (day d);
          digits 2 (hour d); digits 2 (minute d); digits 2 (second d)].
Proof.
  apply re_search_here. unfold RE_DATE_TEMPLATE, str_datetime.
  assert (Hchar : forall c t, String c EmptyString +:+ t = String c t)
    by reflexivity.
  assert (Hblank : is_space " " = true) by reflexivity.
  repeat (cbn [match_here]; rewrite take_digits_digits;
          rewrite ?Hchar; cbn [match_here];
          rewrite ?Ascii.eqb_refl, ?Hblank).
  reflexivity.
Qed.

(** X16. [get_datetime] never returns [None].  When the flag is a boolean
    or one of the accepted spellings, it returns the day, the month and
    the year in this order, then the time to the second, separated by
    dashes, a blank and colons, or by underscores when the flag is true;
    the microseconds never show.  When the flag is refused, it raises the
    error of [str_to_bool]. *)
Theorem get_datetime_format (flat_format : pyval) (now : datetime) :
  get_datetime flat_format now =
  match str_to_bool flat_format with
  | Ok true =>
      Ok (Some (digits 2 (day now) +:+ "_" +:+ digits 2 (month now) +:+ "_"
                +:+ digits 4 (year now) +:+ "__" +:+ digits 2 (hour now)
                +:+ "_" +:+ digits 2 (minute now) +:+ "_"
                +:+ digits 2 (second now)))
  | Ok false =>
      Ok (Some (digits 2 (day now) +:+ "-" +:+ digits 2 (month now) +:+ "-"
                +:+ digits 4 (year now) +:+ " " +:+ digits 2 (hour now)
                +:+ ":" +:+ digits 2 (minute now) +:+ ":"
                +:+ digits 2 (second now)))
  | Raise e => Raise e
  end.
Proof.
  unfold get_datetime. rewrite date_template_matches.
  destruct (str_to_bool flat_format) as [[|]|e]; reflexivity.
Qed.

End Utils.

(** * The claims on the concrete world *)

Section Examples.

#[local] Existing Instance posixpath.

Lemma stop_after_start_witness :
  start 0%nat demo_constructed = (Ok None, demo_started) /\
  fst (stop 0%nat demo_started) = Ok tt /\
  _processHandler (heap demo_stopped 0%nat) = Deleted /\
  trace demo_stopped = trace demo_started ++
    [EvTerminate 0; EvWait 0 20;
     EvLog INFO (terminated_msg (Some "app.exe") 0)].
Proof.
  assert (H : start 0%nat demo_constructed = (Ok None, demo_started))
    by (vm_compute; reflexivity).
  split; [exact H|].
  destruct (stop_after_start 0%nat demo_constructed demo_started H)
    as (h & Hh & Hstop).
  assert (Hh0 : h = 0%nat) by (vm_compute in Hh; congruence).
  subst h. destruct (Hstop demo_started eq_refl) as (Hok & Hdel & Htr).
  split; [exact Hok|]. split; [exact Hdel|]. exact (proj1 Htr).
Defined.

Lemma construct_missing_path_witness :
  fs_exists (os demo_init) "sim/none.exe" = false /\
  exists prefix s',
    new_Process "sim/none.exe" "JCP" (Some "sim") demo_init
    = (Raise (Exn FileNotFoundError (prefix +:+ quoted "sim/none.exe")), s') /\
    trace s' = [].
Proof.
  split; [vm_compute; reflexivity|].
  destruct (construct_missing_path "sim/none.exe" "JCP" (Some "sim") demo_init
              (or_introl eq_refl))
    as (path & prefix & s' & Hnew & _ & _ & Hpath & _ & Htr & _).
  rewrite (Hpath eq_refl) in Hnew. exists prefix, s'. split; [exact Hnew|exact Htr].
Defined.

Lemma start_failure_not_registered_witness :
  let s1 := snd (new_Process "sim/bad.exe" "JCP" (Some "sim") demo_init) in
  let s2 := snd (start 0%nat s1) in
  new_Process "sim/bad.exe" "JCP" (Some "sim") demo_init = (Ok 0%nat, s1) /\
  start 0%nat s1 = (Ok (Some exec_format_error), s2) /\
  fst (startProcessFromFileName "sim/bad.exe" "JCP" (Some "sim") demo_init)
  = Ok (Some 0%nat,
        Some (Exn AssertionError
                ("Process " +:+ quoted "bad.exe" +:+ " could not be started: "
                 +:+ "[Errno 8] Exec format error: 'sim/bad.exe'"))) /\
  processContainer s2 = [].
Proof.
  intros s1 s2.
  assert (H1 : new_Process "sim/bad.exe" "JCP" (Some "sim") demo_init
               = (Ok 0%nat, s1)) by (vm_compute; reflexivity).
  assert (H2 : start 0%nat s1 = (Ok (Some exec_format_error), s2))
    by (vm_compute; reflexivity).
  split; [exact H1|]. split; [exact H2|].
  destruct (start_failure_not_registered _ _ _ _ _ _ _ _ H1 H2)
    as (Heq & _ & _ & Hc & _).
  split; [now rewrite Heq|exact Hc].
Defined.

Lemma demo_registry_inv : registry_inv demo_registry.
Proof. apply registry_inv_run, registry_inv_empty. reflexivity. Qed.

Lemma demo_registry_keys : NoDup (dict_keys (processContainer demo_registry)).
Proof. exact (proj1 demo_registry_inv). Qed.

Lemma stopProcess_spec_witness :
  NoDup (dict_keys (processContainer demo_registry)) /\
  dict_get "B" (processContainer demo_registry) = Some 1%nat /\
  processContainer (snd (stopProcess "B" demo_registry)) = [("A", 0%nat)] /\
  fst (stopProcess "B" demo_registry) = Ok None.
Proof.
  split; [exact demo_registry_keys|]. split; [vm_compute; reflexivity|].
  pose proof (stopProcess_spec "B" demo_registry demo_registry_keys) as W.
  change (dict_get "B" (processContainer demo_registry)) with (Some 1%nat) in W.
  cbn zeta iota in W.
  destruct W as (_ & _ & Hc & _ & _ & _ & Hstop).
  split; [exact Hc|]. exact (proj1 (Hstop 1%nat eq_refl)).
Defined.

Lemma stopAllProcesses_spec_witness :
  registry_inv demo_registry /\
  processContainer demo_registry = [("A", 0%nat); ("B", 1%nat)] /\
  fst (stopAllProcesses demo_registry) = Ok None /\
  processContainer (snd (stopAllProcesses demo_registry)) = [] /\
  trace (snd (stopAllProcesses demo_registry)) = trace demo_registry ++
    [EvTerminate 0; EvWait 0 20; EvKill 0;
     EvLog INFO (killed_msg (Some "hang.exe"));
     EvTerminate 1; EvWait 1 20;
     EvLog INFO (terminated_msg (Some "app.exe") 0)].
Proof.
  split; [exact demo_registry_inv|]. split; [vm_compute; reflexivity|].
  pose proof (stopAllProcesses_spec demo_registry demo_registry_inv) as W.
  change (processContainer demo_registry)
    with [("A", 0%nat); ("B", 1%nat)] in W at 1.
  cbn zeta iota in W.
  destruct W as (Hok & Hc & Htr & _).
  split; [exact Hok|]. split; [exact Hc|]. exact Htr.
Defined.

Lemma registry_keys_unique_witness :
  let ops := [OpStart "sim/hang.exe" "JCP" None] in
  let s := run ops demo_init in
  let out := startProcessFromFileName "sim/app.exe" "JCP" (Some "sim") s in
  processContainer demo_init = [] /\
  NoDup (dict_keys (processContainer s)) /\
  dict_get "JCP" (processContainer s) = Some 0%nat /\
  out = (Ok (Some 1%nat, None), snd out) /\
  processContainer (snd out) = [("JCP", 1%nat)].
Proof.
  intros ops s out.
  destruct registry_keys_unique as [Hrun Hstart].
  split; [vm_compute; reflexivity|]. split; [exact (Hrun ops demo_init eq_refl)|].
  split; [vm_compute; reflexivity|].
  assert (Hout : out = (Ok (Some 1%nat, None), snd out)) by (vm_compute; reflexivity).
  split; [exact Hout|].
  destruct (Hstart _ _ _ _ _ _ Hout) as (Hc & _). exact Hc.
Defined.

Lemma log_file_location_witness :
  new_Process "sim/app.exe" "JCP" (Some "sim") demo_init
  = (Ok 0%nat, demo_constructed) /\
  basename (normpath "sim/app.exe") = "app" +:+ "." +:+ "exe" /\
  exists f,
    _stdFile (heap demo_constructed 0%nat) = Some f /\
    files (os demo_constructed) !! f = Some "sim/app.log".
Proof.
  assert (H1 : new_Process "sim/app.exe" "JCP" (Some "sim") demo_init
               = (Ok 0%nat, demo_constructed)) by (vm_compute; reflexivity).
  assert (H2 : basename (normpath "sim/app.exe") = "app" +:+ "." +:+ "exe")
    by (vm_compute; reflexivity).
  split; [exact H1|]. split; [exact H2|].
  destruct (log_file_location _ _ _ _ _ _ _ _ H1 H2)
    as (f & _ & Hf & Hfiles & _).
  exists f. split; [exact Hf|exact Hfiles].
Defined.

Lemma construct_bad_base_name_witness :
  let out := new_Process "tool" "JCP" (Some "sim") demo_init in
  fs_exists (os demo_init) "tool" = true /\
  count_char dot (basename (normpath "tool")) <> 1%nat /\
  exists e, fst out = Raise e /\ exn_class e = ValueError.
Proof.
  intros out.
  assert (H1 : fs_exists (os demo_init) "tool" = true) by (vm_compute; reflexivity).
  assert (H2 : count_char dot (basename (normpath "tool")) <> 1%nat)
    by (vm_compute; discriminate).
  assert (H3 : out = (fst out, snd out)) by (vm_compute; reflexivity).
  split; [exact H1|]. split; [exact H2|].
  destruct (construct_bad_base_name _ _ _ _ _ _ H1 H2 H3) as (_ & Hv).
  destruct (Hv eq_refl) as (e & He & Hclass & _). eauto.
Defined.

Lemma handler_lifecycle_witness :
  new_Process "sim/app.exe" "JCP" (Some "sim") demo_init
  = (Ok 0%nat, demo_constructed) /\
  getProcessHandler 0%nat demo_constructed = (Ok None, demo_constructed).
Proof.
  assert (H1 : new_Process "sim/app.exe" "JCP" (Some "sim") demo_init
               = (Ok 0%nat, demo_constructed)) by (vm_compute; reflexivity).
  split; [exact H1|].
  exact (proj1 (handler_lifecycle _ _ _ _ _ _ H1)).
Defined.

Lemma default_working_directory_witness :
  let out := new_Process "sim/app.exe" "JCP" None demo_init in
  fs_exists (os demo_init) "sim/app.exe" = true /\
  fs_exists (os demo_init) (os_cwd (os demo_init)) = false /\
  fst out = Ok 0%nat /\
  _workingDirectory (heap (snd out) 0%nat) = Some "/home/robot".
Proof.
  intros out.
  assert (H1 : fs_exists (os demo_init) "sim/app.exe" = true) by (vm_compute; reflexivity).
  assert (H2 : out = (fst out, snd out)) by (vm_compute; reflexivity).
  split; [exact H1|]. split; [vm_compute; reflexivity|].
  destruct (default_working_directory _ _ _ _ _ H1 H2) as (Hwd & _ & Hiff & _).
  split; [|exact Hwd].
  apply (proj2 Hiff). exists "app", "exe". split; vm_compute; reflexivity.
Defined.

(** C8 as stated fails: [tool] exists and its base name has no dot, yet
    with a working directory that does not exist construction fails with
    [FileNotFoundError]. *)
Lemma bad_base_name_not_found :
  fs_exists (os demo_init) "tool" = true /\
  count_char dot (basename (normpath "tool")) <> 1%nat /\
  fst (new_Process "tool" "JCP" (Some "nodir") demo_init)
  = Raise (Exn FileNotFoundError
             ("Working directory does not exists: " +:+ quoted "nodir")).
Proof.
  split; [vm_compute; reflexivity|]. split; [vm_compute; discriminate|vm_compute; reflexivity].
Qed.

(** C9 as stated fails: after [stop()] reading the handle does not give
    the [None] it gave before [start()], it raises [AttributeError]. *)
Lemma handle_after_stop_not_null :
  fst (getProcessHandler 0%nat demo_constructed) = Ok None /\
  fst (start 0%nat demo_constructed) = Ok None /\
  fst (stop 0%nat demo_started) = Ok tt /\
  fst (getProcessHandler 0%nat demo_stopped)
  = Raise (no_attribute "Process" "_processHandler") /\
  fst (getProcessHandler 0%nat demo_stopped)
  <> fst (getProcessHandler 0%nat demo_constructed).
Proof.
  repeat split; try (vm_compute; reflexivity). vm_compute. discriminate.
Qed.

(** C10 as stated fails: [sim/app.exe] exists and no working directory is
    given, but the current directory is read-only and construction fails
    when it opens the log file. *)
Lemma default_directory_unwritable :
  fs_exists (os (init_state (demo_os "ro"))) "sim/app.exe" = true /\
  fst (new_Process "sim/app.exe" "JCP" None (init_state (demo_os "ro")))
  = Raise (Exn OSError "[Errno 13] Permission denied: 'ro/app.log'").
Proof. split; vm_compute; reflexivity. Qed.

Lemma started_process_runs_witness :
  let out := startProcessFromFileName "sim/app.exe" "JCP" (Some "sim") demo_init in
  out = (Ok (Some 0%nat, None), snd out) /\
  proc_args (procs (os (snd out)) 0%nat) = "sim/app.exe" /\
  proc_cwd (procs (os (snd out)) 0%nat) = Some "sim".
Proof.
  intros out.
  assert (H : out = (Ok (Some 0%nat, None), snd out))
    by (vm_compute; reflexivity).
  split; [exact H|].
  destruct (started_process_runs _ _ _ _ _ _ H)
    as (h & name & ext & f & _ & Hh & _ & Hargs & Hcwd & _).
  assert (h = 0%nat) by (rewrite Hh; vm_compute; reflexivity). subst h.
  split; [exact Hargs|exact Hcwd].
Defined.

Lemma construction_failure_spawns_nothing_witness :
  let out := new_Process "sim/none.exe" "JCP" (Some "sim") demo_init in
  out = (Raise (Exn FileNotFoundError
                  ("File does not exists: " +:+ quoted "sim/none.exe")),
         snd out) /\
  os (snd out) = os demo_init.
Proof.
  intros out.
  assert (H : out = (Raise (Exn FileNotFoundError
                       ("File does not exists: " +:+ quoted "sim/none.exe")),
                     snd out)) by (vm_compute; reflexivity).
  split; [exact H|].
  destruct (construction_failure_spawns_nothing _ _ _ _ _ _ H)
    as (_ & _ & Hos & _). exact Hos.
Defined.


Lemma stop_needs_handle_witness :
  _processHandler (heap demo_constructed 0%nat) = Value None /\
  stop 0%nat demo_constructed
  = (Raise (no_attribute "NoneType" "terminate"), demo_constructed) /\
  _processHandler (heap demo_started 0%nat) = Value (Some 0%nat) /\
  stop 0%nat demo_stopped
  = (Raise (no_attribute "Process" "_processHandler"), demo_stopped).
Proof.
  assert (H1 : _processHandler (heap demo_constructed 0%nat) = Value None)
    by (vm_compute; reflexivity).
  assert (H2 : _processHandler (heap demo_started 0%nat) = Value (Some 0%nat))
    by (vm_compute; reflexivity).
  split; [exact H1|].
  split; [exact (proj1 (stop_needs_handle 0%nat demo_constructed) H1)|].
  split; [exact H2|].
  exact (proj2 (proj2 (proj2 (stop_needs_handle 0%nat demo_started)) _ H2)).
Defined.

Lemma start_forgets_running_child_witness :
  _processHandler (heap demo_started 0%nat) = Value (Some 0%nat) /\
  (0 < nprocs (os demo_started))%nat /\
  handle_of (snd (start 0%nat demo_started)) 0%nat <> Some 0%nat /\
  procs (os (snd (start 0%nat demo_started))) 0%nat
  = procs (os demo_started) 0%nat.
Proof.
  assert (H1 : _processHandler (heap demo_started 0%nat) = Value (Some 0%nat))
    by (vm_compute; reflexivity).
  assert (H2 : (0 < nprocs (os demo_started))%nat) by (vm_compute; lia).
  split; [exact H1|]. split; [exact H2|].
  destruct (start_forgets_running_child 0%nat 0%nat demo_started H1 H2)
    as (_ & Hne & Hp & _).
  split; [exact Hne|exact Hp].
Defined.

Lemma start_then_stop_restores_registry_witness :
  let out := start_simulation_process "sim/app.exe" "JCP" (Some "sim") demo_init in
  dict_get "JCP" (processContainer demo_init) = None /\
  out = (Ok "JCP", snd out) /\
  fst (stop_simulation_process "JCP" (snd out)) = Ok tt /\
  processContainer (snd (stop_simulation_process "JCP" (snd out))) = [].
Proof.
  intros out.
  assert (H1 : dict_get "JCP" (processContainer demo_init) = None)
    by (vm_compute; reflexivity).
  assert (H2 : out = (Ok "JCP", snd out)) by (vm_compute; reflexivity).
  split; [exact H1|]. split; [exact H2|].
  destruct (start_then_stop_restores_registry _ _ _ _ _ _ H1 H2)
    as (Hok & Hc & _).
  split; [exact Hok|exact Hc].
Defined.

Lemma duplicate_id_orphans_first_witness :
  let s := run [OpStart "sim/hang.exe" "JCP" None] demo_init in
  let out := start_simulation_process "sim/app.exe" "JCP" (Some "sim") s in
  registry_inv s /\
  dict_get "JCP" (processContainer s) = Some 0%nat /\
  handle_of s 0%nat = Some 0%nat /\
  out = (Ok "JCP", snd out) /\
  handle_of (snd (stopProcess "JCP" (snd out))) 0%nat = Some 0%nat /\
  dict_get "JCP" (processContainer (snd (stopProcess "JCP" (snd out)))) = None.
Proof.
  intros s out.
  assert (H1 : registry_inv s)
    by (apply registry_inv_run, registry_inv_empty; reflexivity).
  assert (H2 : dict_get "JCP" (processContainer s) = Some 0%nat)
    by (vm_compute; reflexivity).
  assert (H3 : handle_of s 0%nat = Some 0%nat) by (vm_compute; reflexivity).
  assert (H4 : out = (Ok "JCP", snd out)) by (vm_compute; reflexivity).
  split; [exact H1|]. split; [exact H2|]. split; [exact H3|].
  split; [exact H4|].
  destruct (duplicate_id_orphans_first _ _ _ _ _ _ _ _ H1 H2 H3 H4)
    as (_ & Hgone & _ & Hh & _).
  split; [exact Hh|exact Hgone].
Defined.

Lemma stop_twice_unknown_id_witness :
  NoDup (dict_keys (processContainer demo_registry)) /\
  is_Some (dict_get "B" (processContainer demo_registry)) /\
  fst (stopProcess "B" (snd (stopProcess "B" demo_registry)))
  = Ok (Some ("No process ID with name: " +:+ quoted "B")).
Proof.
  assert (H2 : is_Some (dict_get "B" (processContainer demo_registry)))
    by (exists 1%nat; vm_compute; reflexivity).
  split; [exact demo_registry_keys|]. split; [exact H2|].
  destruct (stop_twice_unknown_id "B" demo_registry demo_registry_keys H2)
    as (Heq & _).
  now rewrite Heq.
Defined.

Lemma after_stop_all_nothing_registered_witness :
  registry_inv demo_registry /\
  processContainer demo_registry <> [] /\
  fst (stop_all_simulation_processes demo_registry) = Ok tt /\
  fst (stopAllProcesses (snd (stop_all_simulation_processes demo_registry)))
  = Ok (Some "There is no simulation process currently running to be stopped").
Proof.
  assert (H2 : processContainer demo_registry <> [])
    by (vm_compute; discriminate).
  split; [exact demo_registry_inv|]. split; [exact H2|].
  destruct (after_stop_all_nothing_registered demo_registry demo_registry_inv H2)
    as (Hok & Heq & _).
  split; [exact Hok|]. now rewrite Heq.
Defined.

Lemma stop_all_failure_keeps_registry_witness :
  let s := snd (stop 0%nat demo_registry) in
  fst (stopAllProcesses s) = Raise (no_attribute "Process" "_processHandler") /\
  processContainer (snd (stopAllProcesses s)) = [("A", 0%nat); ("B", 1%nat)].
Proof.
  intros s.
  assert (H : fst (stopAllProcesses s)
              = Raise (no_attribute "Process" "_processHandler"))
    by (vm_compute; reflexivity).
  split; [exact H|].
  destruct (stop_all_failure_keeps_registry s _ H) as (_ & Hc & _).
  rewrite Hc. vm_compute. reflexivity.
Defined.

Lemma registered_processes_hold_handles_witness :
  let ops := [OpStart "sim/hang.exe" "A" None;
              OpStart "sim/app.exe" "B" (Some "sim")] in
  let s := run ops demo_init in
  processContainer demo_init = [] /\
  dict_get "A" (processContainer s) = Some 0%nat /\
  exists h, _processHandler (heap s 0%nat) = Value (Some h).
Proof.
  intros ops s.
  assert (H1 : processContainer demo_init = []) by reflexivity.
  assert (H2 : dict_get "A" (processContainer s) = Some 0%nat)
    by (vm_compute; reflexivity).
  split; [exact H1|]. split; [exact H2|].
  destruct (registered_processes_hold_handles ops demo_init H1 "A" 0%nat H2)
    as (_ & (h & Hh & _) & _).
  exists h. exact Hh.
Defined.

Lemma same_base_name_same_log_witness :
  let out1 := new_Process "sim/app.exe" "A" (Some "sim") demo_init in
  let out2 := new_Process "sim/app.exe" "B" (Some "sim") (snd out1) in
  out1 = (Ok 0%nat, snd out1) /\
  out2 = (Ok 1%nat, snd out2) /\
  exists fa fb path,
    fa <> fb /\
    files (os (snd out2)) !! fa = Some path /\
    files (os (snd out2)) !! fb = Some path.
Proof.
  intros out1 out2.
  assert (H1 : out1 = (Ok 0%nat, snd out1)) by (vm_compute; reflexivity).
  assert (H2 : out2 = (Ok 1%nat, snd out2)) by (vm_compute; reflexivity).
  split; [exact H1|]. split; [exact H2|].
  destruct (same_base_name_same_log _ _ _ _ _ _ _ _ _ _ _ H1 H2 eq_refl eq_refl)
    as (fa & fb & path & _ & Hne & _ & _ & Ha & Hb & _).
  exists fa, fb, path. auto.
Defined.

Lemma str_to_bool_ignores_blanks_witness :
  all_space " " = true /\ all_space "  " = true /\
  str_to_bool (PyStr (" " +:+ "yes" +:+ "  ")) = Ok true.
Proof.
  assert (H1 : all_space " " = true) by reflexivity.
  assert (H2 : all_space "  " = true) by reflexivity.
  split; [exact H1|]. split; [exact H2|].
  pose proof (str_to_bool_ignores_blanks " " "yes" "  " H1 H2) as W.
  change (str_to_bool (PyStr "yes")) with (Ok true) in W.
  destruct (str_to_bool (PyStr (" " +:+ "yes" +:+ "  "))) as [y|e];
    [now subst y|contradiction].
Defined.

Lemma str_to_bool_of_str_bool_witness :
  all_space " " = true /\ all_space EmptyString = true /\
  str_to_bool (PyStr (" " +:+ str_bool false +:+ EmptyString)) = Ok false.
Proof.
  assert (H1 : all_space " " = true) by reflexivity.
  assert (H2 : all_space EmptyString = true) by reflexivity.
  split; [exact H1|]. split; [exact H2|].
  exact (proj1 (str_to_bool_of_str_bool false " " EmptyString H1 H2)).
Defined.

End Examples.
